(** * eth-registrar-ens: the auction registrar client (src/index.js)

    A shallow embedding of the JavaScript module [src/index.js]: the
    [Registrar] object, the [Entry] and [Deed] value objects, and the
    operations [getDeed], [getEntry], [openAuction], [bidFactory],
    [submitBid], [unsealBid], [isBidRevealed] and [finalizeAuction].

    The collaborators the module talks to (web3, the registrar and deed
    contracts, the ENS normaliser, [Math.random] and the wall clock) are
    gathered in one [World] record, so that every operation is a function
    that can be run against a concrete world.  Effects are threaded
    through a small state-and-exception monad whose state records every
    collaborator call and every callback invocation in order. *)

From Stdlib Require Import ZArith NArith String Ascii List Bool Lia.
From Stdlib Require Import DecimalString.
From stdpp Require Import base list strings gmap.

Import ListNotations.
Local Open Scope string_scope.
Local Open Scope Z_scope.

Set Default Proof Using "Type".

(** ** JavaScript primitives used by the module *)

Module JS.

(** A JavaScript number that is either an integer or [NaN]; this is
    all that time values and their differences need. *)
Definition number := option Z.

Definition NaN : number := None.

(** [TimeClip] of ECMAScript: a time value further than 8.64e15
    milliseconds from the epoch makes an invalid [Date], whose numeric
    value is [NaN]. *)
Definition TimeClip (t : Z) : number :=
  if Z.abs t <=? 8640000000000000 then Some t else NaN.

(** [new Date(t)] for a numeric [t], as its time value. *)
Definition new_Date (t : Z) : number := TimeClip t.

(** [a - b]: any [NaN] operand gives [NaN]. *)
Definition sub (a b : number) : number :=
  match a, b with
  | Some x, Some y => Some (x - y)
  | _, _ => NaN
  end.

(** [a < b] and [a > b]: false as soon as an operand is [NaN]. *)
Definition lt (a b : number) : bool :=
  match a, b with
  | Some x, Some y => x <? y
  | _, _ => false
  end.

Definition gt (a b : number) : bool := lt b a.

(** [s.length], in code units. *)
Definition length (s : string) : Z := Z.of_nat (String.length s).

(** [s.substring(0, n)]: clamps at the end of the string. *)
Definition substring0 (n : nat) (s : string) : string :=
  String.substring 0 n s.

(** [s[i]] as an optional character ([undefined] past the end). *)
Definition char_at (i : nat) (s : string) : option ascii := String.get i s.

End JS.

(** ** The Entry object and its auction mode *)

(** [const hours = 60 * 60 * 1000] *)
Definition hours : Z := 60 * 60 * 1000.

(** The mode computed by the [Entry] constructor.  [now] is the reading
    of the wall clock taken by [new Date()], in milliseconds (always a
    valid date); [registrationDate] is in seconds, as stored by the
    registrar, and [new Date(registrationDate * 1000)] may be invalid. *)
Definition Entry_mode (name : string) (status registrationDate now : Z)
  : string :=
  if JS.length name <? 7 then
    if status =? 0 then "invalid" else "can-invalidate"
  else if status =? 0 then "open"
  else if status =? 1 then
    let now : JS.number := Some now in
    let registration := JS.new_Date (registrationDate * 1000) in
    if JS.gt (JS.sub registration now) (Some (24 * hours)) then "auction"
    else if JS.lt now registration
            && JS.lt (JS.sub registration now) (Some (24 * hours))
    then "reveal"
    else if JS.gt now registration
            && JS.lt (JS.sub now registration) (Some (24 * hours))
    then "finalize"
    else "finalize-open"
  else if status =? 2 then "owned"
  else "".

(** ** Errors and outcomes *)

(** The two singleton errors of the module, and the failures that come
    from the collaborators. *)
Inductive error : Type :=
| TooShort                       (* Registrar.TooShort *)
| NoDeposit                      (* Registrar.NoDeposit *)
| NormaliseError (msg : string)  (* thrown by normalise *)
| LedgerError (msg : string).    (* thrown or reported by web3 *)

Inductive outcome (A : Type) : Type :=
| Returned (a : A)
| Thrown (e : error).
Arguments Returned {A} a.
Arguments Thrown {A} e.

(** ** Value objects *)

(** An amount of wei as a caller passes it: a number, or a string such
    as web3.toWei returns.  A BigNumber object takes part in a
    comparison through the string that its valueOf returns, and stands
    here as that string. *)
Inductive amount : Type :=
| Num (n : Z)
| Str (s : string).

(** The transaction object handed to web3; every field is optional. *)
Module Params.
Record t : Type := Build {
  from : option string;
  value : option amount;
  gas : option Z }.
(** [{}], the default of every [params] argument. *)
Definition empty : t := {| from := None; value := None; gas := None |}.
End Params.

(** [function Deed(address, balance, creationDate, owner)]; each field
    holds what the constructor was given, [None] standing for [null]. *)
Module Deed.
Record t : Type := Build {
  address : option string;
  balance : option Z;
  creationDate : option Z;
  owner : option string }.
End Deed.

(** [function Entry(name, hash, status, deed, registrationDate, value,
    highestBid)] with the derived field [mode]. *)
Module Entry.
Record t : Type := Build {
  name : string;
  hash : string;
  status : Z;
  deed : Deed.t;
  registrationDate : Z;
  value : Z;
  highestBid : Z;
  mode : string }.
End Entry.

(** The object literal built by [bidFactory]. *)
Module Bid.
Record t : Type := Build {
  name : string;
  hash : string;
  value : amount;
  owner : string;
  secret : string;
  hexSecret : string;
  shaBid : string }.
End Bid.

(** The Entry constructor: stores its arguments and computes the mode
    from the clock reading [now]. *)
Definition new_Entry (now : Z) (name hash : string) (status : Z)
    (deed : Deed.t) (registrationDate value highestBid : Z) : Entry.t :=
  {| Entry.name := name; Entry.hash := hash; Entry.status := status;
     Entry.deed := deed; Entry.registrationDate := registrationDate;
     Entry.value := value; Entry.highestBid := highestBid;
     Entry.mode := Entry_mode name status registrationDate now |}.

(** ** Math.random *)

(** A double in the interval [0, 1): [mant / 2^(53 + scale)] with a
    53-bit [mant].  Every such double, normal or subnormal, has this
    shape. *)
Record double01 : Type := Double01 {
  mant : N;
  scale : N;
  mant_53 : (mant <? 2 ^ 53)%N = true }.

(** Rounding of a natural number to 53 significant bits, to nearest and
    ties to even: the rounding of an IEEE 754 double operation. *)
Definition round53 (x : N) : N :=
  let e := (N.size x - 53)%N in
  if (e =? 0)%N then x
  else
    let q := N.shiftr x e in
    let r := (x mod 2 ^ e)%N in
    let half := (2 ^ (e - 1))%N in
    let q' := if (half <? r)%N || ((r =? half)%N && N.odd q)
              then (q + 1)%N else q in
    N.shiftl q' e.

(** [Math.floor(r * 10)] for a double [r] in [0, 1): the product is
    rounded to a double, then floored. *)
Definition floor_times_10 (r : double01) : nat :=
  N.to_nat (round53 (mant r * 10) / 2 ^ (53 + scale r))%N.

(** [BigNumber.prototype.toNumber] on an integer: the nearest double,
    ties to even.  The numbers of the registrar are below 2^256, far
    from the largest double. *)
Definition toNumber (n : Z) : Z :=
  match n with
  | Z0 => 0
  | Zpos p => Z.of_N (round53 (Npos p))
  | Zneg p => - Z.of_N (round53 (Npos p))
  end.

(** ** The collaborators *)

(** A call made on the registrar contract, on a deed contract or on
    [web3.eth]; the [Tx_] ones create transactions (ledger writes). *)
Inductive ledger_call : Type :=
| Call_ens_owner (tld : string)
| Call_entries (hash : string)
| Call_shaBid (hash owner : string) (value : amount) (hexSecret : string)
| Call_sealedBids (shaBid : string)
| Call_getBalance (address : string)
| Call_deed_creationDate (address : string)
| Call_deed_owner (address : string)
| Tx_startAuctions (hashes : list (option string)) (params : Params.t)
| Tx_newBid (shaBid : string) (params : Params.t)
| Tx_unsealBid (hash owner : string) (value : amount) (hexSecret : string)
    (params : Params.t)
| Tx_finalizeAuction (hash : string) (params : Params.t).

Definition is_write (c : ledger_call) : bool :=
  match c with
  | Tx_startAuctions _ _ | Tx_newBid _ _ | Tx_unsealBid _ _ _ _ _
  | Tx_finalizeAuction _ _ => true
  | _ => false
  end.

(** What the environment answers.  The contract methods are those the
    module calls on the objects that web3 builds from the ABI of
    [interfaces.js]; the ABI itself only fixes their names.  [entries]
    returns the five-element array of the registrar: four BigNumbers,
    here their integers, around the address of the deed.

    An answer [Thrown e] is what the call without a callback throws.
    Given a callback, web3 reports the failures of the node to the
    callback, but it still throws the failures it meets while it formats
    the request, an invalid address in the parameters for one, and does
    not invoke the callback then: [throws_early] tells these calls.

    [StringToNumber] is the conversion of a string to a number that the
    comparison of a string with a number applies. *)
Record World : Type := {
  web3_sha3 : string -> string;
  normalise : string -> outcome string;
  namehash : string -> string;
  Date_now : Z;
  Math_random : nat -> double01;
  Number_toString : double01 -> string;
  StringToNumber : string -> JS.number;
  throws_early : ledger_call -> bool;
  ens_owner : string -> outcome string;
  entries : string -> outcome (Z * string * Z * Z * Z);
  shaBid : string -> string -> amount -> string -> outcome string;
  sealedBids : string -> outcome string;
  getBalance : string -> outcome Z;
  deed_creationDate : string -> outcome Z;
  deed_owner : string -> outcome string;
  startAuctions : list (option string) -> Params.t -> outcome string;
  newBid : string -> Params.t -> outcome string;
  unsealBid :
    string -> string -> amount -> string -> Params.t -> outcome string;
  finalizeAuction_tx : string -> Params.t -> outcome string }.

(** ** The effect monad *)

(** What a caller's callback can be handed as its result. *)
Inductive value : Type :=
| VEntry (e : Entry.t)
| VTx (tx : string)
| VBool (b : bool).

Inductive event : Type :=
| EvNormalise (name : string)
| EvSha3 (data : string)
| EvLedger (c : ledger_call)
| EvCallback (err : option error) (result : option value).

(** The state threaded through an operation: the events so far, oldest
    first, and the number of values already drawn from [Math.random]. *)
Record state : Type := { trace : list event; drawn : nat }.

Definition initial : state := {| trace := []; drawn := 0 |}.

Definition M (A : Type) : Type := state -> outcome A * state.

#[export] Instance M_ret : MRet M := fun A a s => (Returned a, s).

#[export] Instance M_bind : MBind M := fun A B f m s =>
  match m s with
  | (Returned a, s') => f a s'
  | (Thrown e, s') => (Thrown e, s')
  end.

Definition throw {A : Type} (e : error) : M A := fun s => (Thrown e, s).

(** [try { body } catch (e) { handler e }] *)
Definition try_catch {A : Type} (body : M A) (handler : error -> M A)
  : M A := fun s =>
  match body s with
  | (Returned a, s') => (Returned a, s')
  | (Thrown e, s') => handler e s'
  end.

Definition log (ev : event) : M unit := fun s =>
  (Returned tt, {| trace := trace s ++ [ev]; drawn := drawn s |}).

Definition of_outcome {A : Type} (r : outcome A) : M A := fun s => (r, s).

(** ** The Registrar object and its operations *)

Record Registrar : Type := {
  tld : string;
  minLength : Z;
  address : string;
  rootNode : string }.

(** The address that stands for "no deed" and for a revealed bid. *)
Definition zero_address : string :=
  "0x0000000000000000000000000000000000000000".

(** [new Array(n)]: [n] empty slots. *)
Definition new_Array {A : Type} (n : nat) : list (option A) :=
  replicate n None.

(** [a[j] = v] on a JavaScript array: in range it overwrites the slot,
    out of range it grows the array, leaving holes in between. *)
Definition array_set {A : Type} (j : nat) (v : A) (a : list (option A))
  : list (option A) :=
  if (j <? length a)%nat then <[j := Some v]> a
  else a ++ replicate (j - length a) None ++ [Some v].

Section Operations.

Context (w : World).

(** A synchronous web3 call: it returns the answer or throws. *)
Definition call {A : Type} (c : ledger_call) (answer : outcome A) : M A :=
  _ ← log (EvLedger c); of_outcome answer.

(** A web3 call given a callback: the answer goes to the callback, and
    so does a failure, unless web3 meets it while it formats the
    request: that one is thrown, and the callback is not invoked. *)
Definition call_async {A : Type} (c : ledger_call) (answer : outcome A)
    (callback : option error -> option A -> M unit) : M unit :=
  _ ← log (EvLedger c);
  match answer with
  | Returned a => callback None (Some a)
  | Thrown e => if throws_early w c then throw e else callback (Some e) None
  end.

(** Invoking the caller's callback with [(err, result)]. *)
Definition invoke (err : option error) (result : option value) : M unit :=
  log (EvCallback err result).

Definition ens_normalise (name : string) : M string :=
  _ ← log (EvNormalise name); of_outcome (normalise w name).

(** [Math.random()] *)
Definition random : M double01 := fun s =>
  (Returned (Math_random w (drawn s)),
   {| trace := trace s; drawn := S (drawn s) |}).

(** [function Registrar(web3, ens, tld = 'eth', minLength = 7)] *)
Definition new_Registrar (tld : option string) (minLength : option Z)
  : M Registrar :=
  let tld := default "eth" tld in
  let minLength := default 7 minLength in
  address ← call (Call_ens_owner tld) (ens_owner w tld);
  mret {| tld := tld; minLength := minLength; address := address;
          rootNode := namehash w tld |}.

(** [this.sha3 = function sha3withZeroX]: [web3.sha3] with ['0x']
    prepended when the second character of its result is not ['x']. *)
Definition sha3withZeroX (data : string) : string :=
  let result := web3_sha3 w data in
  match JS.char_at 1 result with
  | Some "x"%char => result
  | _ => "0x" ++ result
  end.

Definition sha3 (data : string) : M string :=
  _ ← log (EvSha3 data); mret (sha3withZeroX data).

Context (this : Registrar).

Definition checkLength (name : string) : M unit :=
  if JS.length name <? minLength this then throw TooShort else mret tt.

Definition getDeed (address : string) : M Deed.t :=
  balance ← call (Call_getBalance address) (getBalance w address);
  creationDate ←
    call (Call_deed_creationDate address) (deed_creationDate w address);
  owner ← call (Call_deed_owner address) (deed_owner w address);
  mret (Deed.Build (Some address) (Some balance) (Some creationDate)
          (Some owner)).

Definition getEntry (input : string) (callback : bool)
  : M (option Entry.t) :=
  '(name, hash) ←
    (if negb (JS.substring0 2 input =? "0x")%string then
       name ← ens_normalise input;
       hash ← sha3 name;
       mret (name, hash)
     else mret (input, input));
  e ← call (Call_entries hash) (entries w hash);
  let '(e0, e1, e2, e3, e4) := e in
  deed ←
    (if negb (e1 =? zero_address)%string then getDeed e1
     else mret (Deed.Build (Some e1) None None None));
  let entry :=
    new_Entry (Date_now w) name hash (toNumber e0) deed (toNumber e2)
      (toNumber e3) (toNumber e4) in
  if callback then
    _ ← invoke None (Some (VEntry entry)); mret None
  else mret (Some entry).

(** The loop [for (let i = 0; i < randomHashes.length; i++)] of
    [openAuction], with [todo] iterations left to run. *)
Fixpoint fill_random (todo i : nat) (randomHashes : list (option string))
  : M (list (option string)) :=
  match todo with
  | O => mret randomHashes
  | S todo' =>
      r ← random;
      h ← sha3 (Number_toString w r);
      fill_random todo' (S i) (array_set i h randomHashes)
  end.

Definition openAuction (name : string) (params : Params.t)
    (callback : bool) : M (option string) :=
  let randomHashes : list (option string) := new_Array 10 in
  randomHashes ← fill_random (length randomHashes) 0 randomHashes;
  r ← random;
  let j := floor_times_10 r in
  if callback then
    _ ← try_catch
          (normalisedName ← ens_normalise name;
           _ ← checkLength name;
           hash ← sha3 normalisedName;
           let randomHashes := array_set j hash randomHashes in
           call_async (Tx_startAuctions randomHashes params)
             (startAuctions w randomHashes params)
             (fun err tx => invoke err (VTx <$> tx)))
          (fun e => invoke (Some e) None);
    mret None
  else
    normalisedName ← ens_normalise name;
    _ ← checkLength name;
    hash ← sha3 normalisedName;
    let randomHashes := array_set j hash randomHashes in
    tx ← call (Tx_startAuctions randomHashes params)
           (startAuctions w randomHashes params);
    mret (Some tx).

Definition bidFactory (name owner : string) (value : amount)
    (secret : string) : M Bid.t :=
  _ ← checkLength name;
  normalisedName ← ens_normalise name;
  hash ← sha3 normalisedName;
  hexSecret ← sha3 secret;
  hash' ← sha3 normalisedName;
  hexSecret' ← sha3 secret;
  shaBid ← call (Call_shaBid hash' owner value hexSecret')
             (shaBid w hash' owner value hexSecret');
  mret {| Bid.name := normalisedName; Bid.hash := hash;
          Bid.value := value; Bid.owner := owner; Bid.secret := secret;
          Bid.hexSecret := hexSecret; Bid.shaBid := shaBid |}.

(** [ToNumber] on an amount. *)
Definition ToNumber (a : amount) : JS.number :=
  match a with
  | Num n => Some n
  | Str s => StringToNumber w s
  end.

(** [a < b] on a possibly missing amount and an amount: two strings are
    compared as strings, code unit by code unit; otherwise both sides
    are converted to numbers, a missing [a], which is [undefined], to
    [NaN]. *)
Definition less_than (a : option amount) (b : amount) : bool :=
  match a, b with
  | Some (Str x), Str y => String.ltb x y
  | Some a, b => JS.lt (ToNumber a) (ToNumber b)
  | None, _ => false
  end.

(** [params.value < bid.value] *)
Definition deposit_below_bid (params : Params.t) (bid : Bid.t) : bool :=
  less_than (Params.value params) (Bid.value bid).

Definition submitBid (bid : Bid.t) (params : Params.t) (callback : bool)
  : M (option string) :=
  if callback then
    _ ← (if deposit_below_bid params bid then invoke (Some NoDeposit) None
         else call_async (Tx_newBid (Bid.shaBid bid) params)
                (newBid w (Bid.shaBid bid) params)
                (fun err tx => invoke err (VTx <$> tx)));
    mret None
  else
    _ ← (if deposit_below_bid params bid then throw NoDeposit
         else mret tt);
    tx ← call (Tx_newBid (Bid.shaBid bid) params)
           (newBid w (Bid.shaBid bid) params);
    mret (Some tx).

Definition unsealBid_op (bid : Bid.t) (params : Params.t)
    (callback : bool) : M (option string) :=
  let c := Tx_unsealBid (Bid.hash bid) (Bid.owner bid) (Bid.value bid)
             (Bid.hexSecret bid) params in
  let answer := unsealBid w (Bid.hash bid) (Bid.owner bid) (Bid.value bid)
                  (Bid.hexSecret bid) params in
  if callback then
    _ ← call_async c answer (fun err tx => invoke err (VTx <$> tx));
    mret None
  else
    tx ← call c answer; mret (Some tx).

Definition isBidRevealed (bid : Bid.t) (callback : bool)
  : M (option bool) :=
  if callback then
    _ ← call_async (Call_sealedBids (Bid.shaBid bid))
          (sealedBids w (Bid.shaBid bid))
          (fun err result =>
             match err with
             | Some e => invoke (Some e) None
             | None =>
                 invoke None
                   ((fun r => VBool (r =? zero_address)%string) <$> result)
             end);
    mret None
  else
    result ← call (Call_sealedBids (Bid.shaBid bid))
               (sealedBids w (Bid.shaBid bid));
    mret (Some (result =? zero_address)%string).

Definition finalizeAuction (name : string) (params : Params.t)
    (callback : bool) : M (option string) :=
  normalisedName ← ens_normalise name;
  hash ← sha3 normalisedName;
  if callback then
    _ ← call_async (Tx_finalizeAuction hash params)
          (finalizeAuction_tx w hash params)
          (fun err tx => invoke err (VTx <$> tx));
    mret None
  else
    tx ← call (Tx_finalizeAuction hash params)
           (finalizeAuction_tx w hash params);
    mret (Some tx).

End Operations.

(** ** Reading a trace *)

(** The ledger calls of a trace, in order. *)
Definition ledger_calls (t : list event) : list ledger_call :=
  omap (fun ev => match ev with EvLedger c => Some c | _ => None end) t.

(** The ledger writes (transactions) of a trace. *)
Definition ledger_writes (t : list event) : list ledger_call :=
  filter (fun c => is_write c = true) (ledger_calls t).

(** The invocations of the caller's callback, as [(err, result)]. *)
Definition callbacks (t : list event)
  : list (option error * option value) :=
  omap (fun ev => match ev with
                  | EvCallback err result => Some (err, result)
                  | _ => None
                  end) t.

(** The strings handed to [normalise] and to [this.sha3]. *)
Definition normalised (t : list event) : list string :=
  omap (fun ev => match ev with EvNormalise n => Some n | _ => None end) t.

Definition hashed (t : list event) : list string :=
  omap (fun ev => match ev with EvSha3 d => Some d | _ => None end) t.

(** ** The phases of the specification *)

(** The four windows of a name in status Bidding, in the words of the
    specification: more than 24 hours before the deadline, the last 24
    hours before it, the first 24 hours from it on (the deadline instant
    included), and later.  Both times are in milliseconds. *)
Definition spec_bidding_phase (registrationDeadline now : Z) : string :=
  if 24 * hours <? registrationDeadline - now then "auction"
  else if 0 <? registrationDeadline - now then "reveal"
  else if now - registrationDeadline <=? 24 * hours then "finalize"
  else "finalize-open".

(** The phase function of the specification, for a registrar configured
    with [minLength]. *)
Definition spec_phase (minLength : Z) (name : string)
    (status registrationDate now : Z) : string :=
  if JS.length name <? minLength then
    if status =? 0 then "invalid" else "can-invalidate"
  else if status =? 0 then "open"
  else if status =? 1 then spec_bidding_phase (registrationDate * 1000) now
  else if status =? 2 then "owned"
  else "".

(** ** A stand-in for the collaborators *)

Lemma mod_2_53 (m : N) : (m mod 2 ^ 53 <? 2 ^ 53)%N = true.
Proof. apply N.ltb_lt, N.mod_lt. discriminate. Qed.

(** The double [(m mod 2^53) / 2^(53 + k)]. *)
Definition double_of (m k : N) : double01 :=
  Double01 (m mod 2 ^ 53) k (mod_2_53 m).

Module Mock.

(** A normaliser that rejects the underscore, as the UTS46 normaliser of
    ethereum-ens does, and leaves every other name as it is. *)
Fixpoint has_underscore (s : string) : bool :=
  match s with
  | EmptyString => false
  | String c s' => (c =? "_")%char || has_underscore s'
  end.

Definition reject_underscore (name : string) : outcome string :=
  if has_underscore name then Thrown (NormaliseError "Illegal char _")
  else Returned name.

(** An injective stand-in for Keccak-256. *)
Definition prefix_hash (data : string) : string := "0x" ++ data.

Fixpoint zeros (n : nat) : string :=
  match n with
  | O => EmptyString
  | S n' => String "0" (zeros n')
  end.

(** Removes the zeros at the end of a string of digits. *)
Fixpoint strip_zeros (s : string) : string :=
  match s with
  | EmptyString => EmptyString
  | String c s' =>
      match strip_zeros s' with
      | EmptyString => if (c =? "0")%char then EmptyString else String c EmptyString
      | rest => String c rest
      end
  end.

(** The exact decimal expansion of a double in [0, 1), which is what
    [toString] prints for the doubles whose expansion is short. *)
Definition decimal_expansion (r : double01) : string :=
  if (mant r =? 0)%N then "0"
  else
    let k := (53 + scale r)%N in
    let digits := NilEmpty.string_of_uint (N.to_uint (mant r * 5 ^ k)) in
    "0." ++ strip_zeros
              (zeros (N.to_nat k - String.length digits) ++ digits).

(** The number of a string of decimal digits, rounded to a double; the
    stand-in gives [NaN] for every other string. *)
Fixpoint digits_value (acc : N) (s : string) : option N :=
  match s with
  | EmptyString => Some acc
  | String c s' =>
      let d := N_of_ascii c in
      if ((48 <=? d) && (d <=? 57))%N
      then digits_value (acc * 10 + (d - 48))%N s'
      else None
  end.

Definition digits_to_number (s : string) : JS.number :=
  match s with
  | EmptyString => Some 0
  | _ => (fun n => Z.of_N (round53 n)) <$> digits_value 0 s
  end.

(** A linear congruential stream of draws. *)
Definition lcg (n : nat) : double01 :=
  double_of (N.of_nat (S n) * 6364136223846793005 + 1442695040888963407) 0.

(** The stand-in world: the clock reads [now], [Math.random] yields
    [random], every name has the entry [entry], every sealed bid the
    record [sealed], and every transaction succeeds. *)
Definition world (now : Z) (random : nat -> double01)
    (entry : Z * string * Z * Z * Z) (sealed : string) : World :=
  {| web3_sha3 := prefix_hash;
     normalise := reject_underscore;
     namehash := prefix_hash;
     Date_now := now;
     Math_random := random;
     Number_toString := decimal_expansion;
     StringToNumber := digits_to_number;
     throws_early := fun _ => false;
     ens_owner := fun _ =>
       Returned "0x6090a6e47849629b7245dfa1ca21d94cd15878ef";
     entries := fun _ => Returned entry;
     shaBid := fun hash owner value hexSecret =>
       Returned (prefix_hash (hash ++ owner ++ hexSecret));
     sealedBids := fun _ => Returned sealed;
     getBalance := fun _ => Returned 5000000000000000000;
     deed_creationDate := fun _ => Returned 1481108206;
     deed_owner := fun _ =>
       Returned "0x8394a052eb6c32fb9defcaabc12fcbd8fea0b8a8";
     startAuctions := fun _ _ => Returned "0xa1";
     newBid := fun _ _ => Returned "0xa2";
     unsealBid := fun _ _ _ _ _ => Returned "0xa3";
     finalizeAuction_tx := fun _ _ => Returned "0xa4" |}.

(** [new Registrar(web3)]: the defaults. *)
Definition registrar : Registrar :=
  {| tld := "eth"; minLength := 7;
     address := "0x6090a6e47849629b7245dfa1ca21d94cd15878ef";
     rootNode := prefix_hash "eth" |}.

(** An entry nobody has bid on, and one that is owned. *)
Definition open_entry : Z * string * Z * Z * Z :=
  (0, zero_address, 0, 0, 0).

Definition owned_entry : Z * string * Z * Z * Z :=
  (2, "0x268e06911ba1ddc9138b355f9b42711abbc6eaec", 1481108206,
   5000000000000000000, 11100000000000000000).

End Mock.

(** * Properties *)

Local Open Scope list_scope.

(** ** The mode of an entry in status Bidding *)

(** Case analysis on the integer comparisons of a goal. *)
Ltac split_comparisons :=
  repeat match goal with
    | |- context [(?a <? ?b)%Z] => destruct (Z.ltb_spec a b)
    | |- context [(?a <=? ?b)%Z] => destruct (Z.leb_spec a b)
    | |- context [(?a =? ?b)%Z] => destruct (Z.eqb_spec a b)
    end.

(** With a name of seven characters or more and a registration date
    that makes a valid [Date], the mode in status Bidding is decided by
    strict comparisons on both sides of each 24-hour mark. *)
Lemma Entry_mode_bidding (name : string) (registrationDate now : Z) :
  7 <= JS.length name ->
  Z.abs (registrationDate * 1000) <= 8640000000000000 ->
  Entry_mode name 1 registrationDate now =
    let registration := registrationDate * 1000 in
    if 24 * hours <? registration - now then "auction"
    else if (now <? registration) && (registration - now <? 24 * hours)
    then "reveal"
    else if (registration <? now) && (now - registration <? 24 * hours)
    then "finalize"
    else "finalize-open".
Proof.
  intros Hlen Hdate. unfold Entry_mode, JS.new_Date, JS.TimeClip.
  destruct (Z.ltb_spec (JS.length name) 7); [lia |].
  destruct (Z.leb_spec (Z.abs (registrationDate * 1000)) 8640000000000000);
    [| lia].
  reflexivity.
Qed.

(** In status Bidding the mode is one of the four auction modes. *)
Lemma Entry_mode_bidding_total (name : string) (registrationDate now : Z) :
  7 <= JS.length name ->
  Entry_mode name 1 registrationDate now ∈
    ["auction"; "reveal"; "finalize"; "finalize-open"].
Proof.
  intros Hlen. unfold Entry_mode.
  destruct (Z.ltb_spec (JS.length name) 7); [lia |].
  change (1 =? 0) with false. change (1 =? 1) with true. cbv iota zeta.
  repeat match goal with
    | |- context [if ?b then _ else _] => destruct b
    end; repeat constructor.
Qed.

(** Away from the three instants at which a window of the specification
    closes, the constructor computes the phase of the specification. *)
Lemma Entry_mode_bidding_interior (name : string)
    (registrationDate now : Z) :
  7 <= JS.length name ->
  Z.abs (registrationDate * 1000) <= 8640000000000000 ->
  registrationDate * 1000 - now <> 24 * hours ->
  now <> registrationDate * 1000 ->
  now - registrationDate * 1000 <> 24 * hours ->
  Entry_mode name 1 registrationDate now =
    spec_bidding_phase (registrationDate * 1000) now.
Proof.
  intros Hlen Hdate H1 H2 H3.
  rewrite Entry_mode_bidding by assumption.
  unfold spec_bidding_phase, hours in *. cbv zeta.
  split_comparisons; simpl; try reflexivity; lia.
Qed.

(** C1 (the code departs from the claim).  At the instant of the
    registration deadline, 24 hours before it and 24 hours after it,
    the constructor of an entry in status Bidding computes
    'finalize-open', where the windows of the specification give
    Finalize, Reveal and Finalize. *)
Theorem C1_window_boundaries_fall_through :
  let registrationDate := 1500000000 in
  let deadline := registrationDate * 1000 in
  (Entry_mode "foobarbaz" 1 registrationDate deadline = "finalize-open"
   /\ spec_bidding_phase deadline deadline = "finalize")
  /\ (Entry_mode "foobarbaz" 1 registrationDate (deadline - 24 * hours)
      = "finalize-open"
      /\ spec_bidding_phase deadline (deadline - 24 * hours) = "reveal")
  /\ (Entry_mode "foobarbaz" 1 registrationDate (deadline + 24 * hours)
      = "finalize-open"
      /\ spec_bidding_phase deadline (deadline + 24 * hours) = "finalize").
Proof. repeat split; reflexivity. Qed.

(** ** The short-name rule *)

(** The constructor compares the length of the name with the literal 7,
    whatever the registrar was constructed with. *)
Lemma Entry_mode_short (name : string) (status registrationDate now : Z) :
  JS.length name < 7 ->
  Entry_mode name status registrationDate now =
    if status =? 0 then "invalid" else "can-invalidate".
Proof.
  intros Hlen. unfold Entry_mode.
  destruct (Z.ltb_spec (JS.length name) 7); [reflexivity | lia].
Qed.

(** With the default minimum length the constructor and the
    specification agree on the short-name rule. *)
Lemma Entry_mode_short_default (name : string)
    (status registrationDate now : Z) :
  JS.length name < 7 ->
  Entry_mode name status registrationDate now =
    spec_phase 7 name status registrationDate now.
Proof.
  intros Hlen. rewrite Entry_mode_short by assumption. unfold spec_phase.
  destruct (Z.ltb_spec (JS.length name) 7); [reflexivity | lia].
Qed.

(** C5 (the code departs from the claim).  A registrar constructed with
    minimum length 0 still reports the three-character name of an open
    entry as 'invalid', and one constructed with minimum length 10
    reports an eight-character name as 'open'; the phase function of the
    specification, comparing with the configured minimum, gives 'open'
    and 'invalid'. *)
Theorem C5_mode_ignores_configured_minLength :
  let w := Mock.world 1500000000000 Mock.lcg Mock.open_entry zero_address in
  (exists this s e s',
      new_Registrar w (Some "yourTLD") (Some 0) initial = (Returned this, s)
      /\ minLength this = 0
      /\ getEntry w "foo" false s = (Returned (Some e), s')
      /\ Entry.mode e = "invalid"
      /\ spec_phase (minLength this) (Entry.name e) (Entry.status e)
           (Entry.registrationDate e) (Date_now w) = "open")
  /\ (exists this s e s',
      new_Registrar w None (Some 10) initial = (Returned this, s)
      /\ minLength this = 10
      /\ getEntry w "foobarba" false s = (Returned (Some e), s')
      /\ Entry.mode e = "open"
      /\ spec_phase (minLength this) (Entry.name e) (Entry.status e)
           (Entry.registrationDate e) (Date_now w) = "invalid").
Proof.
  split; do 4 eexists; (split; [reflexivity |]);
    (split; [reflexivity |]); (split; [reflexivity |]);
    split; reflexivity.
Qed.

(** ** Running the operations *)

Lemma ledger_calls_app (t1 t2 : list event) :
  ledger_calls (t1 ++ t2) = ledger_calls t1 ++ ledger_calls t2.
Proof. apply omap_app. Qed.

Lemma callbacks_app (t1 t2 : list event) :
  callbacks (t1 ++ t2) = callbacks t1 ++ callbacks t2.
Proof. apply omap_app. Qed.

Lemma normalised_app (t1 t2 : list event) :
  normalised (t1 ++ t2) = normalised t1 ++ normalised t2.
Proof. apply omap_app. Qed.

Lemma hashed_app (t1 t2 : list event) :
  hashed (t1 ++ t2) = hashed t1 ++ hashed t2.
Proof. apply omap_app. Qed.

Lemma ledger_writes_app (t1 t2 : list event) :
  ledger_writes (t1 ++ t2) = ledger_writes t1 ++ ledger_writes t2.
Proof.
  unfold ledger_writes. rewrite ledger_calls_app. apply filter_app.
Qed.

(** Unfolds the monad and the logging wrappers of the operations. *)
Ltac unfold_M :=
  cbv [mbind M_bind mret M_ret throw try_catch log of_outcome call
       call_async invoke ens_normalise sha3 random checkLength
       trace drawn];
  repeat match goal with
    | |- context [match ?s with Build_state t _ => t end] =>
        progress fold (trace s)
    | |- context [match ?s with Build_state _ d => d end] =>
        progress fold (drawn s)
    end.

(** Case analysis on every answer of the world that the goal inspects. *)
Ltac split_answers :=
  repeat match goal with
    | |- context [match ?x with Returned _ => _ | Thrown _ => _ end] =>
        destruct x eqn:?; cbn [trace drawn]
    | |- context [if throws_early ?w ?c then _ else _] =>
        destruct (throws_early w c) eqn:?; cbn [trace drawn]
    end.

(** Brings a trace to the shape [old ++ new events] and evaluates the
    readers on the new events. *)
Ltac read_trace :=
  rewrite <- ?app_assoc; cbn [app];
  rewrite ?ledger_writes_app, ?ledger_calls_app, ?callbacks_app,
    ?normalised_app, ?hashed_app;
  cbn [ledger_writes ledger_calls callbacks normalised hashed omap list_omap
       filter list_filter is_write];
  rewrite ?app_nil_r.

(** ** getEntry on a hash *)

(** When the input begins with "0x", getEntry asks the registrar for the
    entry of the input itself as its first step and hands nothing to the
    normaliser nor to the hash function; an entry that it returns or
    delivers has the input as its name and as its hash. *)
Lemma getEntry_hash_trace (w : World) (input : string)
    (callback : bool) (s : state) :
  JS.substring0 2 input = "0x" ->
  exists r t,
    getEntry w input callback s =
      (r, {| trace := trace s ++ EvLedger (Call_entries input) :: t;
             drawn := drawn s |})
    /\ normalised t = [] /\ hashed t = []
    /\ (forall e,
          r = Returned (Some e) \/ (None, Some (VEntry e)) ∈ callbacks t ->
          Entry.name e = input /\ Entry.hash e = input).
Proof.
  intros Hprefix. unfold getEntry, getDeed. rewrite Hprefix.
  cbn [String.eqb Ascii.eqb Bool.eqb negb]. unfold_M.
  destruct (entries w input) as [[[[[e0 e1] e2] e3] e4] | err];
    [destruct (negb (e1 =? zero_address)%string) |];
    unfold_M; split_answers; destruct callback; cbn [trace drawn];
    rewrite <- ?app_assoc; cbn [app];
    do 2 eexists; (split; [reflexivity |]);
    (split; [reflexivity |]); (split; [reflexivity |]);
    (intros entry [Heq | Hin];
     [ try discriminate Heq; injection Heq as <-; split; reflexivity
     | cbn in Hin; rewrite ?elem_of_nil, ?list_elem_of_singleton in Hin;
       try contradiction; injection Hin as ->; split; reflexivity ]).
Qed.

(** ** The fields of a Deed *)

Definition all_null (d : Deed.t) : Prop :=
  Deed.address d = None /\ Deed.balance d = None
  /\ Deed.creationDate d = None /\ Deed.owner d = None.

Definition all_non_null (d : Deed.t) : Prop :=
  Deed.address d <> None /\ Deed.balance d <> None
  /\ Deed.creationDate d <> None /\ Deed.owner d <> None.

(** The no-deed sentinel of getEntry: the zero address and three nulls. *)
Definition no_deed_sentinel (d : Deed.t) : Prop :=
  Deed.address d = Some zero_address /\ Deed.balance d = None
  /\ Deed.creationDate d = None /\ Deed.owner d = None.

(** The Deed objects that leave the module: the result of getDeed, and
    the deed of an entry that getEntry returns or hands to its callback. *)
Inductive produces_deed (w : World) : Deed.t -> Prop :=
| deed_of_getDeed (address : string) (s s' : state) (d : Deed.t) :
    getDeed w address s = (Returned d, s') -> produces_deed w d
| deed_of_getEntry (input : string) (s s' : state) (e : Entry.t) :
    getEntry w input false s = (Returned (Some e), s') ->
    produces_deed w (Entry.deed e)
| deed_of_getEntry_callback (input : string) (s : state)
    (r : outcome (option Entry.t)) (t : list event) (e : Entry.t) :
    getEntry w input true s =
      (r, {| trace := trace s ++ t; drawn := drawn s |}) ->
    (None, Some (VEntry e)) ∈ callbacks t ->
    produces_deed w (Entry.deed e).

Ltac split_answers_in H :=
  repeat match type of H with
    | context [match ?x with Returned _ => _ | Thrown _ => _ end] =>
        destruct x eqn:?; cbn [trace drawn] in H
    end.

(** getDeed fills the four fields. *)
Lemma getDeed_all_non_null (w : World) (address : string) (s s' : state)
    (d : Deed.t) :
  getDeed w address s = (Returned d, s') -> all_non_null d.
Proof.
  unfold getDeed. unfold_M. intros H. split_answers_in H;
    try discriminate H.
  injection H as <- _. repeat split; discriminate.
Qed.

(** The deed that getEntry puts in an entry, as a function of the
    address [e1] in the registrar's answer. *)
Lemma getEntry_deed (w : World) (input : string) (callback : bool)
    (s : state) (r : outcome (option Entry.t)) (t : list event)
    (e : Entry.t) :
  getEntry w input callback s =
    (r, {| trace := trace s ++ t; drawn := drawn s |}) ->
  r = Returned (Some e) \/ (None, Some (VEntry e)) ∈ callbacks t ->
  no_deed_sentinel (Entry.deed e) \/ all_non_null (Entry.deed e).
Proof.
  unfold getEntry, getDeed.
  destruct (negb (JS.substring0 2 input =? "0x")%string);
    unfold_M; intros H;
    try match type of H with
      | context [normalise w ?n] => destruct (normalise w n)
      end;
    match type of H with
    | context [entries w ?h] =>
        destruct (entries w h) as [[[[[e0 e1] e2] e3] e4] | err]
    | _ => idtac
    end;
    cbn [trace drawn] in H;
    repeat match type of H with
      | context [negb (?a =? ?b)%string] =>
          destruct (String.eqb_spec a b); cbn [negb] in H; unfold_M
      end;
    split_answers_in H; destruct callback; cbn [trace drawn] in H;
    rewrite <- ?app_assoc in H;
    injection H as <- Ht; apply app_inv_head in Ht; subst t;
    (intros [Heq | Hin];
     [ try discriminate Heq; injection Heq as <-
     | cbn in Hin; rewrite ?elem_of_nil, ?list_elem_of_singleton in Hin;
       try contradiction; injection Hin as -> ]);
    cbn; subst;
    first [ left; repeat split; reflexivity
          | right; repeat split; discriminate ].
Qed.

(** getEntry only appends events to the trace and draws no random
    value. *)
Lemma getEntry_state (w : World) (input : string) (callback : bool)
    (s : state) :
  exists t,
    snd (getEntry w input callback s) =
      {| trace := trace s ++ t; drawn := drawn s |}.
Proof.
  unfold getEntry, getDeed.
  destruct (negb (JS.substring0 2 input =? "0x")%string);
    unfold_M;
    try match goal with
      | |- context [normalise w ?n] => destruct (normalise w n)
      end;
    match goal with
    | |- context [entries w ?h] =>
        destruct (entries w h) as [[[[[e0 e1] e2] e3] e4] | err]
    | _ => idtac
    end;
    cbn [trace drawn];
    repeat match goal with
      | |- context [negb (?a =? ?b)%string] =>
          destruct (String.eqb_spec a b); cbn [negb]; unfold_M
      end;
    split_answers; destruct callback; cbn [trace drawn snd];
    rewrite <- ?app_assoc; eexists; reflexivity.
Qed.

(** C6 (amended).  In every Deed object that leaves the module the
    address is not null, and the balance, the creation date and the
    owner are either all null, in the no-deed sentinel whose address is
    the zero address, or all non-null. *)
Theorem C6_deed_is_sentinel_or_full (w : World) (d : Deed.t) :
  produces_deed w d ->
  Deed.address d <> None /\ (no_deed_sentinel d \/ all_non_null d).
Proof.
  intros Hd.
  assert (no_deed_sentinel d \/ all_non_null d) as Hshape.
  { destruct Hd as [address s s' d H | input s s' e H | input s r t e H Hin].
    - right. exact (getDeed_all_non_null _ _ _ _ _ H).
    - assert (exists t, s' = {| trace := trace s ++ t; drawn := drawn s |})
        as [t ->].
      { destruct (getEntry_state w input false s) as [t Ht].
        rewrite H in Ht. eauto. }
      eapply getEntry_deed; [exact H | left; reflexivity].
    - eapply getEntry_deed; [exact H | right; exact Hin]. }
  split; [| exact Hshape].
  destruct Hshape as [(-> & _) | (Ha & _)]; [discriminate | exact Ha].
Qed.

Lemma C6_deed_is_sentinel_or_full_witness :
  let w := Mock.world 1500000000000 Mock.lcg Mock.open_entry zero_address in
  let d := Deed.Build (Some zero_address) None None None in
  produces_deed w d
  /\ Deed.address d <> None /\ (no_deed_sentinel d \/ all_non_null d).
Proof.
  intros w d.
  assert (produces_deed w d) as Hd.
  { refine (deed_of_getEntry w "foobarbaz" initial _
              (new_Entry 1500000000000 "foobarbaz" "0xfoobarbaz" 0 d 0 0 0)
              _).
    reflexivity. }
  split; [exact Hd | exact (C6_deed_is_sentinel_or_full w d Hd)].
Defined.

(** C6 (as stated, refuted).  The deed of an entry nobody has bid on
    has the zero address as its address and null in the three other
    fields: the four fields are neither all null nor all non-null. *)
Lemma C6_sentinel_keeps_its_address :
  let w := Mock.world 1500000000000 Mock.lcg Mock.open_entry zero_address in
  exists e s',
    getEntry w "foobarbaz" false initial = (Returned (Some e), s')
    /\ Entry.deed e = Deed.Build (Some zero_address) None None None
    /\ ~ (all_null (Entry.deed e) \/ all_non_null (Entry.deed e)).
Proof.
  do 2 eexists. split; [reflexivity |]. split; [reflexivity |].
  cbn. intros [(H & _) | (_ & H & _)]; [discriminate H | now apply H].
Qed.

(** ** Errors in callback mode *)

(** openAuction never throws when it is given a callback: whatever
    fails inside its handler reaches the callback. *)
Lemma openAuction_callback_never_throws (w : World) (this : Registrar)
    (name : string) (params : Params.t) (s : state) :
  fst (openAuction w this name params true s) = Returned None.
Proof.
  unfold openAuction. cbn [new_Array replicate length fill_random].
  unfold_M. destruct (normalise w name); cbn [trace drawn];
    [destruct (JS.length name <? minLength this) |];
    cbn [trace drawn]; split_answers; reflexivity.
Qed.

(** getEntry and finalizeAuction call the normaliser, and getEntry the
    registrar, outside any handler: a failure there is thrown, callback
    or not, and the callback is not invoked. *)
Lemma getEntry_throws_normalise_error (w : World) (input : string)
    (callback : bool) (s : state) (e : error) :
  JS.substring0 2 input <> "0x" ->
  normalise w input = Thrown e ->
  getEntry w input callback s =
    (Thrown e, {| trace := trace s ++ [EvNormalise input];
                  drawn := drawn s |}).
Proof.
  intros Hprefix Hnorm. unfold getEntry.
  destruct (String.eqb_spec (JS.substring0 2 input) "0x");
    [contradiction |].
  cbn [negb]. unfold_M. rewrite Hnorm. reflexivity.
Qed.

Lemma getEntry_throws_ledger_error (w : World) (input : string)
    (callback : bool) (s : state) (e : error) :
  JS.substring0 2 input = "0x" ->
  entries w input = Thrown e ->
  getEntry w input callback s =
    (Thrown e, {| trace := trace s ++ [EvLedger (Call_entries input)];
                  drawn := drawn s |}).
Proof.
  intros Hprefix Hentries. unfold getEntry. rewrite Hprefix.
  cbn [String.eqb Ascii.eqb Bool.eqb negb]. unfold_M. rewrite Hentries.
  reflexivity.
Qed.

Lemma finalizeAuction_throws_normalise_error (w : World) (name : string)
    (params : Params.t) (callback : bool) (s : state) (e : error) :
  normalise w name = Thrown e ->
  finalizeAuction w name params callback s =
    (Thrown e, {| trace := trace s ++ [EvNormalise name];
                  drawn := drawn s |}).
Proof.
  intros Hnorm. unfold finalizeAuction. unfold_M. rewrite Hnorm.
  reflexivity.
Qed.

(** C7 (the code departs from the claim).  Given a callback and a name
    that the normaliser rejects, getEntry and finalizeAuction throw the
    normaliser's error and never invoke the callback, where openAuction
    on the same name hands the error to the callback. *)
Theorem C7_getEntry_throws_past_the_callback :
  let w := Mock.world 1500000000000 Mock.lcg Mock.open_entry zero_address in
  let err := NormaliseError "Illegal char _" in
  getEntry w "foo_bar" true initial =
    (Thrown err, {| trace := [EvNormalise "foo_bar"]; drawn := 0 |})
  /\ finalizeAuction w "foo_bar" Params.empty true initial =
    (Thrown err, {| trace := [EvNormalise "foo_bar"]; drawn := 0 |})
  /\ (let '(r, s') :=
        openAuction w Mock.registrar "foo_bar" Params.empty true initial in
      r = Returned None /\ callbacks (trace s') = [(Some err, None)]).
Proof.
  split; [vm_compute; reflexivity |]. split; [vm_compute; reflexivity |].
  vm_compute. split; reflexivity.
Qed.

(** ** submitBid *)

(** When the deposit and the value of the bid are both numbers, the
    check is the comparison of the two numbers: a lower deposit makes
    submitBid throw NoDeposit, or hand it to the callback, and leaves
    the ledger alone. *)
Lemma submitBid_rejects_low_number (w : World) (bid : Bid.t)
    (params : Params.t) (deposit value : Z) (s : state) :
  Params.value params = Some (Num deposit) ->
  Bid.value bid = Num value ->
  deposit < value ->
  submitBid w bid params false s = (Thrown NoDeposit, s)
  /\ submitBid w bid params true s =
       (Returned None,
        {| trace := trace s ++ [EvCallback (Some NoDeposit) None];
           drawn := drawn s |}).
Proof.
  intros Hdeposit Hvalue Hlow.
  assert (deposit_below_bid w params bid = true) as Hcheck.
  { unfold deposit_below_bid. rewrite Hdeposit, Hvalue. cbn.
    apply Z.ltb_lt, Hlow. }
  unfold submitBid. rewrite Hcheck. unfold_M.
  split; [destruct s; reflexivity | reflexivity].
Qed.

(** When the deposit and the value of the bid are both strings, the
    check is the comparison of the two strings. *)
Lemma deposit_below_bid_strings (w : World) (bid : Bid.t)
    (params : Params.t) (deposit value : string) :
  Params.value params = Some (Str deposit) ->
  Bid.value bid = Str value ->
  deposit_below_bid w params bid = String.ltb deposit value.
Proof.
  intros Hdeposit Hvalue. unfold deposit_below_bid.
  rewrite Hdeposit, Hvalue. reflexivity.
Qed.

(** C3 (the code departs from the claim).  With the value of the bid and
    the deposit given as the strings that web3.toWei returns, for 10
    ether and for 9 ether, the deposit is below the value of the bid,
    yet the check compares the strings, finds "9..." not below "1...",
    and submitBid raises no NoDeposit and sends the newBid transaction,
    with or without a callback. *)
Theorem C3_deposit_strings_are_compared_as_strings :
  let w := Mock.world 1500000000000 Mock.lcg Mock.open_entry zero_address in
  let bid :=
    {| Bid.name := "foobarbaz"; Bid.hash := "0xfoobarbaz";
       Bid.value := Str "10000000000000000000"; Bid.owner := "0xa0";
       Bid.secret := "secret"; Bid.hexSecret := "0xsecret";
       Bid.shaBid := "0x0xfoobarbaz0xa00xsecret" |} in
  let params :=
    {| Params.from := Some "0xa0";
       Params.value := Some (Str "9000000000000000000");
       Params.gas := Some 4700000 |} in
  let tx := EvLedger (Tx_newBid (Bid.shaBid bid) params) in
  (ToNumber w (Str "9000000000000000000") = Some 9000000000000000000
   /\ ToNumber w (Bid.value bid) = Some 10000000000000000000
   /\ 9000000000000000000 < 10000000000000000000)
  /\ deposit_below_bid w params bid = false
  /\ submitBid w bid params false initial =
       (Returned (Some "0xa2"), {| trace := [tx]; drawn := 0 |})
  /\ submitBid w bid params true initial =
       (Returned None,
        {| trace := [tx; EvCallback None (Some (VTx "0xa2"))];
           drawn := 0 |}).
Proof.
  intros w bid params tx.
  split; [split; [vm_compute; reflexivity |
                  split; [vm_compute; reflexivity | reflexivity]] |].
  split; [reflexivity |]. split; reflexivity.
Qed.

(** C9.  When the transaction parameters have no value field, the
    deposit check does not fire, whatever the bid, and submitBid issues
    the newBid transaction with those parameters, which carry no
    deposit. *)
Theorem C9_submitBid_without_deposit_goes_through (w : World)
    (bid : Bid.t) (params : Params.t) (s : state) :
  Params.value params = None ->
  let tx := Tx_newBid (Bid.shaBid bid) params in
  let answer := newBid w (Bid.shaBid bid) params in
  deposit_below_bid w params bid = false
  /\ submitBid w bid params false s =
       (match answer with
        | Returned id => Returned (Some id)
        | Thrown e => Thrown e
        end,
        {| trace := trace s ++ [EvLedger tx]; drawn := drawn s |})
  /\ submitBid w bid params true s =
       (match answer with
        | Returned _ => Returned None
        | Thrown e => if throws_early w tx then Thrown e else Returned None
        end,
        {| trace := trace s ++
             EvLedger tx ::
             match answer with
             | Returned id => [EvCallback None (Some (VTx id))]
             | Thrown e =>
                 if throws_early w tx then []
                 else [EvCallback (Some e) None]
             end;
           drawn := drawn s |}).
Proof.
  intros Hvalue tx answer.
  assert (deposit_below_bid w params bid = false) as Hcheck.
  { unfold deposit_below_bid. rewrite Hvalue. reflexivity. }
  split; [exact Hcheck |].
  unfold submitBid. rewrite Hcheck. unfold_M. subst tx answer.
  destruct (newBid w (Bid.shaBid bid) params); cbn [trace drawn];
    [| destruct (throws_early w (Tx_newBid (Bid.shaBid bid) params))];
    cbn [trace drawn]; rewrite <- ?app_assoc; split; reflexivity.
Qed.

Lemma C9_submitBid_without_deposit_goes_through_witness :
  let w := Mock.world 1500000000000 Mock.lcg Mock.open_entry zero_address in
  let bid :=
    {| Bid.name := "foobarbaz"; Bid.hash := "0xfoobarbaz";
       Bid.value := Num 2000000000000000000; Bid.owner := "0xa0";
       Bid.secret := "secret"; Bid.hexSecret := "0xsecret";
       Bid.shaBid := "0x0xfoobarbaz0xa00xsecret" |} in
  Params.value Params.empty = None
  /\ deposit_below_bid w Params.empty bid = false
  /\ submitBid w bid Params.empty false initial =
       (Returned (Some "0xa2"),
        {| trace := [EvLedger (Tx_newBid (Bid.shaBid bid) Params.empty)];
           drawn := 0 |}).
Proof.
  intros w bid. split; [reflexivity |].
  destruct (C9_submitBid_without_deposit_goes_through w bid Params.empty
              initial eq_refl) as (Hcheck & Hsync & _).
  split; [exact Hcheck | exact Hsync].
Defined.

(** ** isBidRevealed *)

(** C8.  When the registrar answers the sealed-bid query for the bid's
    shaBid with [record], isBidRevealed returns, or hands to its
    callback, the boolean that is true exactly when [record] is the zero
    address; the query is its only ledger call. *)
Theorem C8_isBidRevealed_iff_zero_record (w : World) (bid : Bid.t)
    (record : string) (s : state) :
  sealedBids w (Bid.shaBid bid) = Returned record ->
  let query := EvLedger (Call_sealedBids (Bid.shaBid bid)) in
  exists revealed : bool,
    (revealed = true <-> record = zero_address)
    /\ isBidRevealed w bid false s =
         (Returned (Some revealed),
          {| trace := trace s ++ [query]; drawn := drawn s |})
    /\ isBidRevealed w bid true s =
         (Returned None,
          {| trace := trace s ++
               [query; EvCallback None (Some (VBool revealed))];
             drawn := drawn s |}).
Proof.
  intros Hrecord query. exists (record =? zero_address)%string.
  split; [apply String.eqb_eq |].
  unfold isBidRevealed. unfold_M. rewrite Hrecord. cbn [trace drawn].
  rewrite <- ?app_assoc. split; reflexivity.
Qed.

Lemma C8_isBidRevealed_iff_zero_record_witness :
  let bid :=
    {| Bid.name := "foobarbaz"; Bid.hash := "0xfoobarbaz";
       Bid.value := Num 2000000000000000000; Bid.owner := "0xa0";
       Bid.secret := "secret"; Bid.hexSecret := "0xsecret";
       Bid.shaBid := "0x0xfoobarbaz0xa00xsecret" |} in
  let sealed := "0x268e06911ba1ddc9138b355f9b42711abbc6eaec" in
  let revealed_world :=
    Mock.world 1500000000000 Mock.lcg Mock.open_entry zero_address in
  let sealed_world :=
    Mock.world 1500000000000 Mock.lcg Mock.open_entry sealed in
  (sealedBids revealed_world (Bid.shaBid bid) = Returned zero_address
   /\ fst (isBidRevealed revealed_world bid false initial) =
        Returned (Some true))
  /\ (sealedBids sealed_world (Bid.shaBid bid) = Returned sealed
      /\ fst (isBidRevealed sealed_world bid false initial) =
           Returned (Some false)).
Proof.
  intros bid sealed revealed_world sealed_world. split.
  - split; [reflexivity |].
    destruct (C8_isBidRevealed_iff_zero_record revealed_world bid
                zero_address initial eq_refl) as (b & Hb & -> & _).
    cbn [fst]. destruct b; [reflexivity |].
    destruct Hb as [_ Hb]. discriminate (Hb eq_refl).
  - split; [reflexivity |].
    destruct (C8_isBidRevealed_iff_zero_record sealed_world bid
                sealed initial eq_refl) as (b & Hb & -> & _).
    cbn [fst]. destruct b; [| reflexivity].
    destruct Hb as [Hb _]. discriminate (Hb eq_refl).
Defined.

(** ** The random position of openAuction *)

Lemma size_below_2_57 (x : N) : (x < 2 ^ 57)%N -> (N.size x <= 57)%N.
Proof.
  intros Hx. destruct (N.le_gt_cases (N.size x) 57) as [H | H]; [exact H |].
  exfalso.
  assert (2 ^ 58 <= 2 ^ N.size x)%N as Hpow.
  { apply N.pow_le_mono_r; [discriminate | lia]. }
  pose proof (N.size_le x) as Hsize.
  rewrite N.succ_double_spec in Hsize. change (2 ^ 58)%N with (2 * 2 ^ 57)%N in Hpow.
  lia.
Qed.

(** Rounding a number below 2^57 to 53 bits moves it up by 8 at most. *)
Lemma round53_upper (x : N) : (x < 2 ^ 57)%N -> (round53 x <= x + 8)%N.
Proof.
  intros Hx. pose proof (size_below_2_57 x Hx) as Hsize. unfold round53.
  destruct (N.eqb_spec (N.size x - 53) 0) as [| He]; [lia |].
  assert (N.size x - 53 = 1 \/ N.size x - 53 = 2 \/ N.size x - 53 = 3
          \/ N.size x - 53 = 4)%N as Hcases by lia.
  rewrite N.shiftl_mul_pow2, N.shiftr_div_pow2.
  destruct Hcases as [-> | [-> | [-> | ->]]];
    match goal with
    | |- context [(x / 2 ^ ?e)%N] =>
        pose proof (N.div_mod x (2 ^ e)%N ltac:(discriminate)) as Hdiv;
        pose proof (N.mod_lt x (2 ^ e)%N ltac:(discriminate)) as Hmod;
        generalize dependent (x / 2 ^ e)%N;
        generalize dependent (x mod 2 ^ e)%N
    end;
    intros r Hr q Hq;
    match goal with
    | |- context [(2 ^ (?e - 1))%N] =>
        let h := eval vm_compute in (2 ^ (e - 1))%N in
        change (2 ^ (e - 1))%N with h
    end;
    match goal with
    | |- context [(2 ^ ?e)%N] =>
        let p := eval vm_compute in (2 ^ e)%N in
        change (2 ^ e)%N with p in *
    end;
    match goal with
    | |- context [(?h <? r)%N] =>
        destruct (N.ltb_spec h r), (N.eqb_spec r h), (N.odd q)
    end;
    cbn [orb andb]; lia.
Qed.

(** [Math.floor(Math.random() * 10)] is an index of a ten-element array. *)
Lemma floor_times_10_lt (r : double01) : (floor_times_10 r < 10)%nat.
Proof.
  unfold floor_times_10. destruct r as [m k Hm]. cbn [mant scale].
  apply N.ltb_lt in Hm.
  assert (round53 (m * 10) < 10 * 2 ^ 53)%N as Hround.
  { pose proof (round53_upper (m * 10)) as H.
    change (2 ^ 57)%N with (144115188075855872)%N in H.
    change (2 ^ 53)%N with (9007199254740992)%N in *. lia. }
  assert (2 ^ 53 <= 2 ^ (53 + k))%N as Hpow.
  { apply N.pow_le_mono_r; [discriminate | lia]. }
  assert (round53 (m * 10) / 2 ^ (53 + k) < 10)%N as Hdiv.
  { apply N.Div0.div_lt_upper_bound; lia. }
  lia.
Qed.

(** Every one of the ten positions is the floor of some draw. *)
Lemma floor_times_10_onto (j : nat) :
  (j < 10)%nat -> exists r, floor_times_10 r = j.
Proof.
  intros Hj. exists (double_of (N.of_nat j * 900719925474100) 0).
  do 10 (destruct j as [| j]; [vm_compute; reflexivity |]). lia.
Qed.

(** The double 0.7 lies below 7/10, yet its product with 10 rounds to 7. *)
Example floor_times_10_of_0_7 :
  floor_times_10 (double_of 6305039478318694 0) = 7%nat.
Proof. vm_compute. reflexivity. Qed.

(** ** Names that are too short *)

(** C4 (amended).  For a name shorter than the registrar's minimum
    length, bidFactory throws TooShort before anything else; openAuction
    throws TooShort, or hands it to the callback, when the normaliser
    accepts the name, and the normaliser's own error when it does not;
    none of them makes a ledger call. *)
Theorem C4_short_name_is_rejected_before_the_ledger (w : World)
    (this : Registrar) (name : string) :
  JS.length name < minLength this ->
  let err :=
    match normalise w name with
    | Returned _ => TooShort
    | Thrown e => e
    end in
  (forall owner value secret s,
      bidFactory w this name owner value secret s = (Thrown TooShort, s))
  /\ (forall params s,
        exists s',
          openAuction w this name params false s = (Thrown err, s')
          /\ ledger_calls (trace s') = ledger_calls (trace s)
          /\ callbacks (trace s') = callbacks (trace s))
  /\ (forall params s,
        exists s',
          openAuction w this name params true s = (Returned None, s')
          /\ ledger_calls (trace s') = ledger_calls (trace s)
          /\ callbacks (trace s') =
               (callbacks (trace s) ++ [(Some err, None)])).
Proof.
  intros Hshort err.
  assert ((JS.length name <? minLength this) = true) as Hcheck
    by (apply Z.ltb_lt, Hshort).
  split; [| split].
  - intros owner value secret s. unfold bidFactory. unfold_M.
    rewrite Hcheck. destruct s; reflexivity.
  - intros params s. unfold openAuction.
    cbn [new_Array replicate length fill_random]. unfold_M. subst err.
    destruct (normalise w name); rewrite ?Hcheck;
      eexists; (split; [reflexivity |]); cbn [trace]; read_trace;
      split; reflexivity.
  - intros params s. unfold openAuction.
    cbn [new_Array replicate length fill_random]. unfold_M. subst err.
    destruct (normalise w name); rewrite ?Hcheck;
      eexists; (split; [reflexivity |]); cbn [trace]; read_trace;
      split; reflexivity.
Qed.

Lemma C4_short_name_is_rejected_before_the_ledger_witness :
  let w := Mock.world 1500000000000 Mock.lcg Mock.open_entry zero_address in
  JS.length "foo" < minLength Mock.registrar
  /\ (forall owner value secret s,
        bidFactory w Mock.registrar "foo" owner value secret s =
          (Thrown TooShort, s))
  /\ (exists s',
        openAuction w Mock.registrar "foo" Params.empty false initial =
          (Thrown TooShort, s')
        /\ ledger_calls (trace s') = ledger_calls (trace initial)
        /\ callbacks (trace s') = callbacks (trace initial)).
Proof.
  intros w. split; [reflexivity |].
  destruct (C4_short_name_is_rejected_before_the_ledger w Mock.registrar
              "foo" eq_refl) as (Hbid & Hsync & _).
  split; [exact Hbid | exact (Hsync Params.empty initial)].
Defined.

(** C4 (as stated, refuted).  A name that is too short and that the
    normaliser rejects makes openAuction fail with the normaliser's
    error, not with TooShort. *)
Lemma C4_openAuction_normalises_first :
  let w := Mock.world 1500000000000 Mock.lcg Mock.open_entry zero_address in
  JS.length "a_b" < minLength Mock.registrar
  /\ fst (openAuction w Mock.registrar "a_b" Params.empty false initial) =
       Thrown (NormaliseError "Illegal char _")
  /\ fst (openAuction w Mock.registrar "a_b" Params.empty false initial) <>
       Thrown TooShort.
Proof.
  intros w. split; [reflexivity |].
  assert (fst (openAuction w Mock.registrar "a_b" Params.empty false
                 initial) = Thrown (NormaliseError "Illegal char _")) as H
    by (vm_compute; reflexivity).
  split; [exact H |]. rewrite H. discriminate.
Qed.

(** ** The batch of openAuction *)

(** Overwriting an element of a list without duplicates by a value that
    is not in the list leaves it without duplicates. *)
Lemma elem_of_insert_inv {A : Type} (l : list A) (j : nat) (x y : A) :
  y ∈ <[j := x]> l -> y = x \/ y ∈ l.
Proof.
  revert j. induction l as [| a l IH]; intros j Hy.
  - right. exact Hy.
  - destruct j as [| j]; cbn in Hy; apply elem_of_cons in Hy.
    + destruct Hy as [-> | Hy]; [left; reflexivity |].
      right. apply elem_of_cons. right. exact Hy.
    + destruct Hy as [-> | Hy]; [right; apply elem_of_cons; left; reflexivity |].
      destruct (IH j Hy) as [-> | Hl]; [left; reflexivity |].
      right. apply elem_of_cons. right. exact Hl.
Qed.

Lemma NoDup_insert_fresh {A : Type} (l : list A) (j : nat) (x : A) :
  NoDup (x :: l) -> NoDup (<[j := x]> l).
Proof.
  revert j. induction l as [| a l IH]; intros j Hnd.
  - constructor.
  - apply NoDup_cons in Hnd as [Hx Hnd].
    apply NoDup_cons in Hnd as [Ha Hl].
    rewrite elem_of_cons in Hx.
    destruct j as [| j]; cbn.
    + apply NoDup_cons. split; [| exact Hl]. intros Hin. apply Hx. right. exact Hin.
    + apply NoDup_cons. split.
      * intros Hin. apply elem_of_insert_inv in Hin as [-> | Hin];
          [apply Hx; left; reflexivity | exact (Ha Hin)].
      * apply IH. apply NoDup_cons. split; [| exact Hl].
        intros Hin. apply Hx. right. exact Hin.
Qed.

(** The values that a call starting in state [s] draws from
    Math.random, the decimal strings of the first ten, and their hashes. *)
Definition draw (w : World) (s : state) (i : nat) : double01 :=
  Math_random w (i + drawn s).

Definition decoy_strings (w : World) (s : state) : list string :=
  (fun i => Number_toString w (draw w s i)) <$> seq 0 10.

Definition decoys (w : World) (s : state) : list string :=
  sha3withZeroX w <$> decoy_strings w s.

(** The loop of openAuction fills the ten slots with the hashes of the
    strings of ten successive draws. *)
Lemma fill_random_ten (w : World) (s : state) :
  fill_random w 10 0 (new_Array 10) s =
    (Returned (Some <$> decoys w s),
     {| trace := trace s ++ (EvSha3 <$> decoy_strings w s);
        drawn := 10 + drawn s |}).
Proof.
  cbn [fill_random new_Array replicate]. unfold_M.
  cbn [array_set length Nat.ltb Nat.leb insert list_insert].
  rewrite <- !app_assoc. reflexivity.
Qed.

(** Hashing is not a ledger call. *)
Lemma ledger_calls_sha3 (l : list string) : ledger_calls (EvSha3 <$> l) = [].
Proof. induction l as [| a l IH]; [reflexivity | exact IH]. Qed.

(** Running a bind whose first computation returns. *)
Lemma bind_run {A B : Type} (m : M A) (f : A -> M B) (s s1 : state)
    (a : A) :
  m s = (Returned a, s1) -> (m ≫= f) s = f a s1.
Proof. intros H. unfold mbind, M_bind. rewrite H. reflexivity. Qed.

(** C2 (amended).  For a name that the normaliser accepts and that has
    the minimum length, openAuction issues one ledger call, the
    startAuctions transaction, on a batch of exactly ten hashes and no
    hole.  The hash of the normalised name is at position
    [floor (10 * r)], between 0 and 9, for the eleventh value [r] that
    the call draws from Math.random, and each of the ten positions is
    the floor of some draw; every other position [i] holds the hash of
    the decimal string of the [i]-th value drawn.  When the hash function
    does not collide on the ten decimal strings and the normalised name,
    and these eleven strings are pairwise distinct, the ten hashes are
    pairwise distinct and the hash of the name occurs at that one
    position only.  The call consumes
    eleven draws, so that the next call hashes the next ones. *)
Theorem C2_openAuction_batch (w : World) (this : Registrar)
    (name normalisedName : string) (params : Params.t) (callback : bool)
    (s : state) :
  normalise w name = Returned normalisedName ->
  minLength this <= JS.length name ->
  let target := sha3withZeroX w normalisedName in
  let j := floor_times_10 (draw w s 10) in
  let batch := <[j := target]> (decoys w s) in
  let answer := startAuctions w (Some <$> batch) params in
  exists s',
    openAuction w this name params callback s =
      (if callback then Returned None
       else match answer with
            | Returned tx => Returned (Some tx)
            | Thrown e => Thrown e
            end, s')
    /\ ledger_calls (trace s') =
         (ledger_calls (trace s) ++ [Tx_startAuctions (Some <$> batch) params])
    /\ drawn s' = (11 + drawn s)%nat
    /\ length batch = 10%nat
    /\ (j < 10)%nat
    /\ (forall k, (k < 10)%nat -> exists r, floor_times_10 r = k)
    /\ batch !! j = Some target
    /\ (forall i, i <> j -> batch !! i = decoys w s !! i)
    /\ ((forall a b,
            a ∈ normalisedName :: decoy_strings w s ->
            b ∈ normalisedName :: decoy_strings w s ->
            sha3withZeroX w a = sha3withZeroX w b -> a = b) ->
        NoDup (normalisedName :: decoy_strings w s) ->
        NoDup batch /\ forall i, batch !! i = Some target -> i = j).
Proof.
  intros Hnorm Hlen target j batch answer.
  assert (j < 10)%nat as Hj by apply floor_times_10_lt.
  assert ((JS.length name <? minLength this) = false) as Hcheck
    by (apply Z.ltb_ge, Hlen).
  assert (array_set j target (Some <$> decoys w s) = (Some <$> batch)) as Hset.
  { unfold array_set, batch. rewrite list_fmap_insert.
    replace (j <? length (Some <$> decoys w s))%nat with true; [reflexivity |].
    symmetry. apply Nat.ltb_lt. exact Hj. }
  assert (batch !! j = Some target) as Hat
    by (apply list_lookup_insert_eq; exact Hj).
  pose (tx := Tx_startAuctions (Some <$> batch) params).
  exists {| trace :=
              trace s ++ (EvSha3 <$> decoy_strings w s)
              ++ [EvNormalise name; EvSha3 normalisedName; EvLedger tx]
              ++ (if callback then
                    [match answer with
                     | Returned id => EvCallback None (Some (VTx id))
                     | Thrown e => EvCallback (Some e) None
                     end]
                  else []);
            drawn := 11 + drawn s |}.
  split; [| split; [| split; [| split; [| split; [| split;
    [| split; [| split]]]]]]].
  - unfold openAuction.
    rewrite (bind_run _ _ _ _ _ (fill_random_ten w s)).
    unfold_M. rewrite Hnorm, Hcheck.
    fold (draw w s 10) j target. rewrite Hset. fold answer tx.
    destruct callback, answer; try destruct (throws_early w tx);
      rewrite <- ?app_assoc; reflexivity.
  - cbn [trace]. rewrite !ledger_calls_app, ledger_calls_sha3.
    destruct callback; [destruct answer |]; reflexivity.
  - reflexivity.
  - unfold batch. rewrite length_insert. reflexivity.
  - exact Hj.
  - exact floor_times_10_onto.
  - exact Hat.
  - intros i Hi. apply list_lookup_insert_ne. congruence.
  - intros Hinj Hnd.
    assert (NoDup batch) as Hbatch.
    { apply NoDup_insert_fresh.
      change (target :: decoys w s)
        with (sha3withZeroX w <$> normalisedName :: decoy_strings w s).
      apply NoDup_fmap_2_strong; [exact Hinj | exact Hnd]. }
    split; [exact Hbatch |].
    intros i Hi. exact (NoDup_lookup _ _ _ _ Hbatch Hi Hat).
Qed.

(** The hash of the stand-in world is injective. *)
Lemma mock_sha3_inj (now : Z) (random : nat -> double01)
    (entry : Z * string * Z * Z * Z) (sealed : string) :
  Inj (=) (=) (sha3withZeroX (Mock.world now random entry sealed)).
Proof.
  intros a b H. unfold sha3withZeroX in H. cbn in H.
  injection H as H. exact H.
Qed.

(** A boolean test for the absence of duplicates in a list of strings. *)
Fixpoint distinct (l : list string) : bool :=
  match l with
  | [] => true
  | x :: l' => negb (existsb (String.eqb x) l') && distinct l'
  end.

Lemma distinct_NoDup (l : list string) : distinct l = true -> NoDup l.
Proof.
  induction l as [| x l IH]; intros H; [constructor |].
  cbn in H. apply andb_true_iff in H as [Hx Hl].
  apply NoDup_cons. split; [| exact (IH Hl)].
  intros Hin. apply list_elem_of_In in Hin.
  apply negb_true_iff in Hx.
  assert (existsb (String.eqb x) l = true) as Hex.
  { apply existsb_exists. exists x. split; [exact Hin | apply String.eqb_refl]. }
  congruence.
Qed.

Lemma C2_openAuction_batch_witness :
  let w := Mock.world 1500000000000 Mock.lcg Mock.open_entry zero_address in
  (normalise w "foobarbaz" = Returned "foobarbaz"
   /\ minLength Mock.registrar <= JS.length "foobarbaz")
  /\ exists s' batch,
      openAuction w Mock.registrar "foobarbaz" Params.empty false initial =
        (Returned (Some "0xa1"), s')
      /\ ledger_calls (trace s') =
           [Tx_startAuctions (Some <$> batch) Params.empty]
      /\ length batch = 10%nat
      /\ batch !! 3%nat = Some "0xfoobarbaz"
      /\ NoDup batch.
Proof.
  intros w.
  assert (minLength Mock.registrar <= JS.length "foobarbaz") as Hlen
    by (vm_compute; discriminate).
  split; [split; [reflexivity | exact Hlen] |].
  destruct (C2_openAuction_batch w Mock.registrar "foobarbaz" "foobarbaz"
              Params.empty false initial eq_refl Hlen)
    as (s' & Hrun & Hcalls & _ & Hlength & _ & _ & Hat & _ & Hdistinct).
  exists s'. eexists. split; [exact Hrun |]. split; [exact Hcalls |].
  split; [exact Hlength |]. split; [exact Hat |].
  apply Hdistinct; [intros a b _ _; apply mock_sha3_inj |].
  apply distinct_NoDup. vm_compute. reflexivity.
Defined.

(** C2 (as stated, refuted).  For the three-character name "foo"
    openAuction dispatches no batch at all.  For the name "0.0078125",
    when the first value drawn from Math.random is 0.0078125, the batch
    holds the hash of the name twice, at position 0 where it is the hash
    of the first draw, and at the chosen position 3. *)
Lemma C2_no_batch_or_a_repeated_hash :
  let w := Mock.world 1500000000000 Mock.lcg Mock.open_entry zero_address in
  let random n :=
    match n with
    | O => double_of (2 ^ 46) 0
    | _ => Mock.lcg n
    end in
  let w' := Mock.world 1500000000000 random Mock.open_entry zero_address in
  (JS.length "foo" < minLength Mock.registrar
   /\ openAuction w Mock.registrar "foo" Params.empty false initial =
        (Thrown TooShort,
         {| trace := (EvSha3 <$> decoy_strings w initial)
                       ++ [EvNormalise "foo"];
            drawn := 11 |})
   /\ ledger_calls
        (trace (snd (openAuction w Mock.registrar "foo" Params.empty false
                       initial))) = [])
  /\ (normalise w' "0.0078125" = Returned "0.0078125"
      /\ minLength Mock.registrar <= JS.length "0.0078125"
      /\ Number_toString w' (Math_random w' 0) = "0.0078125"
      /\ exists batch,
          ledger_calls
            (trace (snd (openAuction w' Mock.registrar "0.0078125"
                           Params.empty false initial))) =
            [Tx_startAuctions batch Params.empty]
          /\ length batch = 10%nat
          /\ batch !! 0%nat = Some (Some (sha3withZeroX w' "0.0078125"))
          /\ batch !! 3%nat = Some (Some (sha3withZeroX w' "0.0078125"))).
Proof.
  intros w random w'. split.
  - split; [reflexivity |]. split; vm_compute; reflexivity.
  - split; [reflexivity |]. split; [vm_compute; discriminate |].
    split; [vm_compute; reflexivity |]. eexists.
    split; [vm_compute; reflexivity |].
    split; [reflexivity |]. split; reflexivity.
Qed.

(** * Further properties of the module *)

(** ** this.sha3 *)

Lemma substring0_2_prefix (s : string) :
  JS.substring0 2 ("0x" ++ s)%string = "0x".
Proof. destruct s; reflexivity. Qed.

(** X1.  The second character of what [this.sha3] returns is always
    ['x']: a result of web3.sha3 that begins with "0x" is returned as it
    is, and one whose second character is not ['x'] gets "0x" in front,
    so that in both cases the result begins with "0x". *)
Theorem sha3withZeroX_prefix (w : World) (data : string) :
  JS.char_at 1 (sha3withZeroX w data) = Some "x"%char
  /\ (JS.substring0 2 (web3_sha3 w data) = "0x" ->
      sha3withZeroX w data = web3_sha3 w data)
  /\ (JS.char_at 1 (web3_sha3 w data) <> Some "x"%char ->
      sha3withZeroX w data = ("0x" ++ web3_sha3 w data)%string
      /\ JS.substring0 2 (sha3withZeroX w data) = "0x").
Proof.
  unfold sha3withZeroX.
  destruct (JS.char_at 1 (web3_sha3 w data)) as [c |] eqn:Hc.
  - destruct (Ascii.eqb_spec c "x") as [-> | Hne].
    + split; [exact Hc |]. split; [reflexivity |].
      intros H. now contradiction H.
    + assert (match c with
              | "x"%char => web3_sha3 w data
              | _ => ("0x" ++ web3_sha3 w data)%string
              end = ("0x" ++ web3_sha3 w data)%string) as ->.
      { destruct c as [[] [] [] [] [] [] [] []]; try reflexivity.
        now contradiction Hne. }
      split; [reflexivity |].
      split; [| intros _; split; [reflexivity | apply substring0_2_prefix]].
      intros Hprefix. exfalso. apply Hne.
      destruct (web3_sha3 w data) as [| a [| b rest]]; try discriminate.
      cbn in Hprefix, Hc. congruence.
  - split; [reflexivity |].
    split; [| intros _; split; [reflexivity | apply substring0_2_prefix]].
    intros Hprefix.
    destruct (web3_sha3 w data) as [| a [| b rest]]; discriminate.
Qed.

(** ** The mode of an entry, continued *)

(** X2.  Unless the name has seven characters or more and the status is
    1, the mode of an entry depends neither on the clock nor on the
    registration date. *)
Theorem Entry_mode_ignores_time (name : string)
    (status registrationDate now registrationDate' now' : Z) :
  JS.length name < 7 \/ status <> 1 ->
  Entry_mode name status registrationDate now =
  Entry_mode name status registrationDate' now'.
Proof.
  intros H. unfold Entry_mode.
  destruct (Z.ltb_spec (JS.length name) 7); [reflexivity |].
  destruct H as [H | H]; [lia |].
  destruct (Z.eqb_spec status 0); [reflexivity |].
  destruct (Z.eqb_spec status 1); [contradiction | reflexivity].
Qed.

Lemma Entry_mode_ignores_time_witness :
  (JS.length "insurance" < 7 \/ 2 <> 1)
  /\ Entry_mode "insurance" 2 1481108206 1500000000000 =
     Entry_mode "insurance" 2 0 0.
Proof.
  assert (JS.length "insurance" < 7 \/ 2 <> 1) as H by (right; discriminate).
  split; [exact H |].
  exact (Entry_mode_ignores_time "insurance" 2 1481108206 1500000000000 0 0 H).
Defined.

(** X3.  A registration date that lies outside the range of a Date, more
    than 8.64e15 milliseconds from the epoch, makes every comparison of
    the constructor false: in status 1 the mode is 'finalize-open'
    whatever the clock reads. *)
Theorem Entry_mode_invalid_date (name : string) (registrationDate now : Z) :
  7 <= JS.length name ->
  8640000000000000 < Z.abs (registrationDate * 1000) ->
  Entry_mode name 1 registrationDate now = "finalize-open".
Proof.
  intros Hlen Hdate. unfold Entry_mode, JS.new_Date, JS.TimeClip.
  destruct (Z.ltb_spec (JS.length name) 7); [lia |].
  destruct (Z.leb_spec (Z.abs (registrationDate * 1000)) 8640000000000000);
    [lia | reflexivity].
Qed.

Lemma Entry_mode_invalid_date_witness :
  (7 <= JS.length "foobarbaz"
   /\ 8640000000000000 < Z.abs (8640000000001 * 1000))
  /\ Entry_mode "foobarbaz" 1 8640000000001 0 = "finalize-open".
Proof.
  assert (7 <= JS.length "foobarbaz") as Hlen by (vm_compute; discriminate).
  assert (8640000000000000 < Z.abs (8640000000001 * 1000)) as Hdate
    by reflexivity.
  split; [split; assumption |].
  exact (Entry_mode_invalid_date "foobarbaz" 8640000000001 0 Hlen Hdate).
Defined.

(** X4.  For a name of seven characters or more, status 1 and a valid
    registration date, with [d] the milliseconds from the clock reading
    to the registration date: the mode is 'auction' exactly when
    [d > 24h], 'reveal' exactly when [0 < d < 24h], 'finalize' exactly
    when [-24h < d < 0], and 'finalize-open' exactly when [d = 24h],
    [d = 0] or [d <= -24h]. *)
Theorem Entry_mode_bidding_windows (name : string)
    (registrationDate now : Z) :
  7 <= JS.length name ->
  Z.abs (registrationDate * 1000) <= 8640000000000000 ->
  let d := registrationDate * 1000 - now in
  let mode := Entry_mode name 1 registrationDate now in
  (mode = "auction" <-> 24 * hours < d)
  /\ (mode = "reveal" <-> 0 < d < 24 * hours)
  /\ (mode = "finalize" <-> - (24 * hours) < d < 0)
  /\ (mode = "finalize-open" <->
      d = 24 * hours \/ d = 0 \/ d <= - (24 * hours)).
Proof.
  intros Hlen Hdate d mode. subst mode.
  rewrite Entry_mode_bidding by assumption. subst d. cbv zeta.
  unfold hours.
  split_comparisons; cbn [andb];
    repeat match goal with
      | |- _ /\ _ => split
      | |- _ <-> _ => split
      end;
    intros Hmode; try discriminate Hmode; try reflexivity; lia.
Qed.

Lemma Entry_mode_bidding_windows_witness :
  (7 <= JS.length "foobarbaz"
   /\ Z.abs (1500000000 * 1000) <= 8640000000000000)
  /\ (Entry_mode "foobarbaz" 1 1500000000 1499999999999 = "reveal" <->
      0 < 1500000000 * 1000 - 1499999999999 < 24 * hours).
Proof.
  assert (7 <= JS.length "foobarbaz") as Hlen by (vm_compute; discriminate).
  assert (Z.abs (1500000000 * 1000) <= 8640000000000000) as Hdate
    by (vm_compute; discriminate).
  split; [split; assumption |].
  exact (proj1 (proj2 (Entry_mode_bidding_windows "foobarbaz" 1500000000
                         1499999999999 Hlen Hdate))).
Defined.

(** X5.  The mode is the empty string exactly when the name has seven
    characters or more and the status is none of 0, 1 and 2. *)
Theorem Entry_mode_empty_iff (name : string)
    (status registrationDate now : Z) :
  Entry_mode name status registrationDate now = "" <->
  7 <= JS.length name /\ status <> 0 /\ status <> 1 /\ status <> 2.
Proof.
  unfold Entry_mode.
  destruct (Z.ltb_spec (JS.length name) 7);
    destruct (Z.eqb_spec status 0); try (split; [discriminate | lia]).
  destruct (Z.eqb_spec status 1).
  - split; [| lia].
    repeat match goal with
      | |- context [if ?b then _ else _] => destruct b
      end; discriminate.
  - destruct (Z.eqb_spec status 2); split; try discriminate; try lia.
    reflexivity.
Qed.

(** ** getEntry, continued *)

(** How getEntry reads its input: as a hash when it begins with "0x",
    as a name to normalise and hash otherwise.  The indices are the name
    and the hash of the entry and the events of this step. *)
Inductive resolves (w : World) (input : string)
  : string -> string -> list event -> Prop :=
| resolves_hash :
    JS.substring0 2 input = "0x" -> resolves w input input input []
| resolves_name (n : string) :
    JS.substring0 2 input <> "0x" ->
    normalise w input = Returned n ->
    resolves w input n (sha3withZeroX w n) [EvNormalise input; EvSha3 n].

(** The deed that getEntry builds for the deed address [e1] of the
    registrar's answer, and the reads it takes. *)
Inductive reads_deed (w : World) (e1 : string)
  : Deed.t -> list event -> Prop :=
| reads_no_deed :
    e1 = zero_address ->
    reads_deed w e1 (Deed.Build (Some e1) None None None) []
| reads_a_deed (b c : Z) (o : string) :
    e1 <> zero_address ->
    getBalance w e1 = Returned b ->
    deed_creationDate w e1 = Returned c ->
    deed_owner w e1 = Returned o ->
    reads_deed w e1 (Deed.Build (Some e1) (Some b) (Some c) (Some o))
      [EvLedger (Call_getBalance e1); EvLedger (Call_deed_creationDate e1);
       EvLedger (Call_deed_owner e1)].

(** When every step succeeds, getEntry returns the entry, or hands it
    to the callback as its last step. *)
Lemma getEntry_success (w : World) (input name h : string)
    (pre dev : list event) (e0 e2 e3 e4 : Z) (e1 : string) (deed : Deed.t)
    (callback : bool) (s : state) :
  resolves w input name h pre ->
  entries w h = Returned (e0, e1, e2, e3, e4) ->
  reads_deed w e1 deed dev ->
  let entry := new_Entry (Date_now w) name h (toNumber e0) deed (toNumber e2)
          (toNumber e3) (toNumber e4) in
  getEntry w input callback s =
    (if callback then Returned None else Returned (Some entry),
     {| trace := trace s ++ pre ++ EvLedger (Call_entries h) :: dev
                   ++ (if callback
                       then [EvCallback None (Some (VEntry entry))]
                       else []);
        drawn := drawn s |}).
Proof.
  intros Hres Hentries Hdeed entry. subst entry. unfold getEntry, getDeed.
  destruct Hres as [Hprefix | n Hprefix Hnorm].
  - rewrite Hprefix. cbn [String.eqb Ascii.eqb Bool.eqb negb]. unfold_M.
    rewrite Hentries.
    destruct Hdeed as [-> | b c o Hne Hb Hc Ho].
    + rewrite String.eqb_refl. cbn [negb]. unfold_M.
      destruct callback; rewrite <- ?app_assoc; reflexivity.
    + destruct (String.eqb_spec e1 zero_address); [contradiction |].
      cbn [negb]. unfold_M. rewrite Hb, Hc, Ho.
      destruct callback; rewrite <- ?app_assoc; reflexivity.
  - destruct (String.eqb_spec (JS.substring0 2 input) "0x");
      [contradiction |].
    cbn [negb]. unfold_M. rewrite Hnorm, Hentries.
    destruct Hdeed as [-> | b c o Hne Hb Hc Ho].
    + rewrite String.eqb_refl. cbn [negb]. unfold_M.
      destruct callback; rewrite <- ?app_assoc; reflexivity.
    + destruct (String.eqb_spec e1 zero_address); [contradiction |].
      cbn [negb]. unfold_M. rewrite Hb, Hc, Ho.
      destruct callback; rewrite <- ?app_assoc; reflexivity.
Qed.

(** Conversely, an entry that getEntry returns or hands to its callback
    comes from a run in which every step succeeded. *)
Lemma getEntry_inversion (w : World) (input : string) (callback : bool)
    (s : state) (r : outcome (option Entry.t)) (t : list event)
    (e : Entry.t) :
  getEntry w input callback s =
    (r, {| trace := trace s ++ t; drawn := drawn s |}) ->
  r = Returned (Some e) \/ (None, Some (VEntry e)) ∈ callbacks t ->
  exists name h pre dev e0 e1 e2 e3 e4 deed,
    resolves w input name h pre
    /\ entries w h = Returned (e0, e1, e2, e3, e4)
    /\ reads_deed w e1 deed dev
    /\ e = new_Entry (Date_now w) name h (toNumber e0) deed (toNumber e2)
          (toNumber e3) (toNumber e4).
Proof.
  unfold getEntry, getDeed.
  destruct (String.eqb_spec (JS.substring0 2 input) "0x") as [Hp | Hp];
    cbn [negb]; unfold_M; intros H;
    try match type of H with
      | context [normalise w ?n] => destruct (normalise w n) eqn:Hnorm
      end;
    match type of H with
    | context [entries w ?h] =>
        destruct (entries w h) as [[[[[e0 e1] e2] e3] e4] | err] eqn:Hentries
    | _ => idtac
    end;
    cbn [trace drawn] in H;
    repeat match type of H with
      | context [negb (?a =? ?b)%string] =>
          destruct (String.eqb_spec a b); cbn [negb] in H; unfold_M
      end;
    split_answers_in H; destruct callback; cbn [trace drawn] in H;
    rewrite <- ?app_assoc in H;
    injection H as <- Ht; apply app_inv_head in Ht; subst t;
    (intros [Heq | Hin];
     [ try discriminate Heq; injection Heq as <-
     | cbn in Hin; rewrite ?elem_of_nil, ?list_elem_of_singleton in Hin;
       try contradiction; injection Hin as -> ]);
    do 10 eexists;
    (split; [first [ apply resolves_hash; assumption
                   | apply resolves_name; eassumption ] |]);
    (split; [eassumption |]);
    (split; [first [ apply reads_no_deed; assumption
                   | apply reads_a_deed; eassumption ] |]);
    subst; reflexivity.
Qed.

(** ** The conversion of the registrar's numbers *)

Lemma size_below (x k : N) : (x < 2 ^ k)%N -> (N.size x <= k)%N.
Proof.
  intros Hx. destruct (N.le_gt_cases (N.size x) k) as [H | H]; [exact H |].
  exfalso.
  assert (2 ^ N.succ k <= 2 ^ N.size x)%N as Hpow.
  { apply N.pow_le_mono_r; [discriminate | lia]. }
  pose proof (N.size_le x) as Hsize.
  rewrite N.succ_double_spec in Hsize. rewrite N.pow_succ_r' in Hpow.
  lia.
Qed.

(** A number of at most 53 bits is a double. *)
Lemma round53_exact (x : N) : (x <= 2 ^ 53)%N -> round53 x = x.
Proof.
  intros Hx. destruct (N.eq_dec x (2 ^ 53)%N) as [-> | Hne];
    [vm_compute; reflexivity |].
  assert (N.size x <= 53)%N as Hsize by (apply size_below; lia).
  unfold round53.
  destruct (N.eqb_spec (N.size x - 53) 0); [reflexivity | lia].
Qed.

(** toNumber leaves the integers up to 2^53 in magnitude as they are. *)
Lemma toNumber_exact (n : Z) : Z.abs n <= 2 ^ 53 -> toNumber n = n.
Proof.
  intros Hn. destruct n as [| p | p]; cbn [toNumber]; [reflexivity | |];
    rewrite round53_exact; try reflexivity;
    change (2 ^ 53)%N with (Z.to_N (2 ^ 53)); lia.
Qed.

(** Beyond 2^53 it rounds: 2^53 + 1 becomes 2^53. *)
Example toNumber_rounds : toNumber (2 ^ 53 + 1) = 2 ^ 53.
Proof. vm_compute. reflexivity. Qed.

(** The reads of a deed hold no invocation of a callback. *)
Lemma reads_deed_callbacks (w : World) (e1 : string) (deed : Deed.t)
    (dev : list event) :
  reads_deed w e1 deed dev -> callbacks dev = [].
Proof. intros [|]; reflexivity. Qed.

(** C10.  When the input begins with "0x", getEntry asks the registrar
    for the entry of the input itself as its first step and hands
    nothing to the normaliser nor to the hash function.  Every entry it
    returns or delivers to the callback has the input as its name and as
    its hash; and when the registrar answers and the deed, if there is
    one, can be read, getEntry does return such an entry, or, given a
    callback, delivers it with a null error. *)
Theorem C10_getEntry_takes_hash_as_is (w : World) (input : string)
    (callback : bool) (s : state) :
  JS.substring0 2 input = "0x" ->
  exists r t,
    getEntry w input callback s =
      (r, {| trace := trace s ++ EvLedger (Call_entries input) :: t;
             drawn := drawn s |})
    /\ normalised t = [] /\ hashed t = []
    /\ (forall e,
          r = Returned (Some e) \/ (None, Some (VEntry e)) ∈ callbacks t ->
          Entry.name e = input /\ Entry.hash e = input)
    /\ (forall e0 e1 e2 e3 e4 deed dev,
          entries w input = Returned (e0, e1, e2, e3, e4) ->
          reads_deed w e1 deed dev ->
          exists e,
            Entry.name e = input /\ Entry.hash e = input
            /\ r = (if callback then Returned None else Returned (Some e))
            /\ callbacks t =
                 (if callback then [(None, Some (VEntry e))] else [])).
Proof.
  intros Hprefix.
  destruct (getEntry_hash_trace w input callback s Hprefix)
    as (r & t & Hrun & Hnorm & Hhash & Hfields).
  exists r, t. split; [exact Hrun |]. split; [exact Hnorm |].
  split; [exact Hhash |]. split; [exact Hfields |].
  intros e0 e1 e2 e3 e4 deed dev Hentries Hdeed.
  pose proof (getEntry_success w input input input [] dev e0 e2 e3 e4 e1
                deed callback s (resolves_hash w input Hprefix) Hentries
                Hdeed) as Hok.
  cbv zeta in Hok. rewrite Hrun in Hok. injection Hok as Hr Ht.
  apply app_inv_head in Ht. cbn [app] in Ht. injection Ht as Ht.
  eexists. split; [| split; [| split; [exact Hr |]]]; [reflexivity .. |].
  rewrite Ht, callbacks_app, (reads_deed_callbacks w e1 deed dev Hdeed).
  destruct callback; reflexivity.
Qed.

Lemma C10_getEntry_takes_hash_as_is_witness :
  let w := Mock.world 1500000000000 Mock.lcg Mock.owned_entry zero_address in
  let input :=
    "0x73079a5cb4c7d259f40c6d0841629e689d2a95b85883b371e075ffb2f329c3e1" in
  JS.substring0 2 input = "0x"
  /\ exists e,
      fst (getEntry w input false initial) = Returned (Some e)
      /\ Entry.name e = input /\ Entry.hash e = input
      /\ ledger_calls (trace (snd (getEntry w input false initial))) !! 0%nat =
           Some (Call_entries input)
      /\ normalised (trace (snd (getEntry w input false initial))) = []
      /\ hashed (trace (snd (getEntry w input false initial))) = [].
Proof.
  intros w input. split; [reflexivity |].
  destruct (C10_getEntry_takes_hash_as_is w input false initial eq_refl)
    as (r & t & Hrun & Hnorm & Hhash & _ & Hreturns).
  pose (address := "0x268e06911ba1ddc9138b355f9b42711abbc6eaec").
  assert (reads_deed w address
            (Deed.Build (Some address) (Some 5000000000000000000)
               (Some 1481108206)
               (Some "0x8394a052eb6c32fb9defcaabc12fcbd8fea0b8a8"))
            [EvLedger (Call_getBalance address);
             EvLedger (Call_deed_creationDate address);
             EvLedger (Call_deed_owner address)]) as Hdeed.
  { apply reads_a_deed; [discriminate | reflexivity ..]. }
  destruct (Hreturns 2 address 1481108206 5000000000000000000
              11100000000000000000 _ _ eq_refl Hdeed)
    as (e & Hname & Hh & Hr & _).
  exists e. rewrite Hrun. cbn [fst snd trace].
  split; [exact Hr |]. split; [exact Hname |]. split; [exact Hh |].
  split; [reflexivity |]. split.
  - rewrite normalised_app.
    change (normalised (EvLedger (Call_entries input) :: t))
      with (normalised t). rewrite Hnorm. reflexivity.
  - rewrite hashed_app.
    change (hashed (EvLedger (Call_entries input) :: t)) with (hashed t).
    rewrite Hhash. reflexivity.
Defined.

(** X6.  Without a callback, getEntry returns an entry exactly when the
    normaliser accepts the input (unless the input is a hash), the
    registrar answers the entries read, and, when the deed address in
    the answer is not the zero address, the three deed reads succeed.
    The entry then has the resolved name and hash, the four numbers of
    the registrar's answer as toNumber converts them, and the deed
    read. *)
Theorem getEntry_returns_iff (w : World) (input : string) (s : state)
    (e : Entry.t) :
  fst (getEntry w input false s) = Returned (Some e) <->
  exists name h pre dev e0 e1 e2 e3 e4 deed,
    resolves w input name h pre
    /\ entries w h = Returned (e0, e1, e2, e3, e4)
    /\ reads_deed w e1 deed dev
    /\ e = new_Entry (Date_now w) name h (toNumber e0) deed (toNumber e2)
          (toNumber e3) (toNumber e4).
Proof.
  split.
  - intros Hrun. destruct (getEntry_state w input false s) as [t Ht].
    destruct (getEntry w input false s) as [r s'] eqn:Hget.
    cbn [fst snd] in *. subst r s'.
    eapply getEntry_inversion; [exact Hget | left; reflexivity].
  - intros (name & h & pre & dev & e0 & e1 & e2 & e3 & e4 & deed
            & Hres & Hentries & Hdeed & ->).
    rewrite (getEntry_success w input name h pre dev e0 e2 e3 e4 e1 deed
               false s Hres Hentries Hdeed).
    reflexivity.
Qed.

(** X7.  An entry that getEntry returns or hands to its callback shows
    the registrar's record for its hash: its status, registration date,
    value and highest bid are the numbers of the record as toNumber
    converts them, that is, rounded to a double, and so the very numbers
    of the record when these are at most 2^53 in magnitude; the address
    of its deed is the deed address of the record. *)
Theorem getEntry_shows_the_record (w : World) (input : string)
    (callback : bool) (s : state) (r : outcome (option Entry.t))
    (t : list event) (e : Entry.t) :
  getEntry w input callback s =
    (r, {| trace := trace s ++ t; drawn := drawn s |}) ->
  r = Returned (Some e) \/ (None, Some (VEntry e)) ∈ callbacks t ->
  exists e0 e1 e2 e3 e4,
    entries w (Entry.hash e) = Returned (e0, e1, e2, e3, e4)
    /\ Deed.address (Entry.deed e) = Some e1
    /\ (Entry.status e = toNumber e0
        /\ Entry.registrationDate e = toNumber e2
        /\ Entry.value e = toNumber e3
        /\ Entry.highestBid e = toNumber e4)
    /\ (Z.abs e0 <= 2 ^ 53 -> Entry.status e = e0)
    /\ (Z.abs e2 <= 2 ^ 53 -> Entry.registrationDate e = e2)
    /\ (Z.abs e3 <= 2 ^ 53 -> Entry.value e = e3)
    /\ (Z.abs e4 <= 2 ^ 53 -> Entry.highestBid e = e4).
Proof.
  intros Hrun He.
  destruct (getEntry_inversion w input callback s r t e Hrun He)
    as (name & h & pre & dev & e0 & e1 & e2 & e3 & e4 & deed
        & Hres & Hentries & Hdeed & ->).
  exists e0, e1, e2, e3, e4. cbn.
  split; [exact Hentries |]. split; [destruct Hdeed; reflexivity |].
  split; [repeat split |].
  repeat split; intros H; apply toNumber_exact, H.
Qed.

Lemma getEntry_shows_the_record_witness :
  let record :=
    (2, "0x268e06911ba1ddc9138b355f9b42711abbc6eaec", 1481108206,
     2 ^ 53 + 1, 11100000000000000000) in
  let w := Mock.world 1500000000000 Mock.lcg record zero_address in
  exists e t,
    getEntry w "insurance" false initial =
      (Returned (Some e),
       {| trace := trace initial ++ t; drawn := drawn initial |})
    /\ entries w (Entry.hash e) = Returned record
    /\ Entry.status e = 2
    /\ Entry.registrationDate e = 1481108206
    /\ Entry.value e = 2 ^ 53.
Proof.
  intros record w.
  destruct (getEntry w "insurance" false initial) as [r s'] eqn:Hget.
  destruct (getEntry_state w "insurance" false initial) as [t Ht].
  rewrite Hget in Ht. cbn [snd] in Ht. subst s'.
  assert (exists e, r = Returned (Some e)) as [e ->].
  { revert Hget. vm_compute. intros Hget. injection Hget as <- _.
    eexists. reflexivity. }
  exists e, t. split; [reflexivity |].
  destruct (getEntry_shows_the_record w "insurance" false initial _ t e
              Hget (or_introl eq_refl))
    as (e0 & e1 & e2 & e3 & e4 & Hentries & _ & (_ & _ & Hvalue & _)
        & Hstatus & Hdate & _).
  change (entries w (Entry.hash e)) with (Returned (A:=Z * string * Z * Z * Z) record) in Hentries |- *.
  injection Hentries as <- <- <- <- <-.
  split; [reflexivity |].
  split; [apply Hstatus; vm_compute; discriminate |].
  split; [apply Hdate; vm_compute; discriminate |].
  rewrite Hvalue. vm_compute. reflexivity.
Defined.

(** X8.  Looking an entry up by the hash that a lookup by name computed
    reads the same record: when the hash begins with "0x", getEntry on
    the hash of an entry that getEntry returned for a name returns an
    entry with the same hash, status, deed, registration date, value and
    highest bid, whose name is the hash. *)
Theorem getEntry_by_hash_of_name (w : World) (input : string)
    (s s2 : state) (e : Entry.t) :
  JS.substring0 2 input <> "0x" ->
  JS.substring0 2 (Entry.hash e) = "0x" ->
  fst (getEntry w input false s) = Returned (Some e) ->
  exists e',
    fst (getEntry w (Entry.hash e) false s2) = Returned (Some e')
    /\ Entry.name e' = Entry.hash e
    /\ Entry.hash e' = Entry.hash e
    /\ Entry.status e' = Entry.status e
    /\ Entry.deed e' = Entry.deed e
    /\ Entry.registrationDate e' = Entry.registrationDate e
    /\ Entry.value e' = Entry.value e
    /\ Entry.highestBid e' = Entry.highestBid e.
Proof.
  intros Hname Hhash Hrun.
  destruct (getEntry_state w input false s) as [t Ht].
  destruct (getEntry w input false s) as [r s'] eqn:Hget.
  cbn [fst snd] in Hrun, Ht. subst r s'.
  destruct (getEntry_inversion w input false s _ t e Hget
              (or_introl eq_refl))
    as (name & h & pre & dev & e0 & e1 & e2 & e3 & e4 & deed
        & Hres & Hentries & Hdeed & ->).
  cbn [new_Entry Entry.hash] in Hhash |- *.
  exists (new_Entry (Date_now w) h h (toNumber e0) deed (toNumber e2)
            (toNumber e3) (toNumber e4)).
  split; [| repeat split].
  rewrite (getEntry_success w h h h [] dev e0 e2 e3 e4 e1 deed false s2
             (resolves_hash w h Hhash) Hentries Hdeed).
  reflexivity.
Qed.

Lemma getEntry_by_hash_of_name_witness :
  let w := Mock.world 1500000000000 Mock.lcg Mock.open_entry zero_address in
  let deed := Deed.Build (Some zero_address) None None None in
  let e := new_Entry 1500000000000 "foo" "0xfoo" 0 deed 0 0 0 in
  (JS.substring0 2 "foo" <> "0x"
   /\ JS.substring0 2 (Entry.hash e) = "0x"
   /\ fst (getEntry w "foo" false initial) = Returned (Some e))
  /\ Entry.mode e = "invalid"
  /\ exists e',
      fst (getEntry w "0xfoo" false initial) = Returned (Some e')
      /\ Entry.name e' = "0xfoo"
      /\ Entry.status e' = Entry.status e
      /\ Entry.deed e' = Entry.deed e.
Proof.
  intros w deed e.
  assert (JS.substring0 2 "foo" <> "0x") as Hname by discriminate.
  assert (JS.substring0 2 (Entry.hash e) = "0x") as Hhash by reflexivity.
  assert (fst (getEntry w "foo" false initial) = Returned (Some e)) as Hrun
    by reflexivity.
  split; [split; [exact Hname | split; [exact Hhash | exact Hrun]] |].
  split; [reflexivity |].
  destruct (getEntry_by_hash_of_name w "foo" initial initial e
              Hname Hhash Hrun)
    as (e' & Hrun' & Hn & _ & Hs & Hd & _).
  exists e'. split; [exact Hrun' |]. split; [exact Hn |].
  split; [exact Hs | exact Hd].
Defined.

(** X9.  The short-name rule looks at the input when the input is a
    hash: for an input that begins with "0x" and has seven characters or
    more, no entry that getEntry returns or hands to its callback has
    the mode 'invalid' or 'can-invalidate', whatever name the hash
    stands for. *)
Theorem getEntry_by_hash_is_never_invalid (w : World) (input : string)
    (callback : bool) (s : state) (r : outcome (option Entry.t))
    (t : list event) (e : Entry.t) :
  JS.substring0 2 input = "0x" ->
  7 <= JS.length input ->
  getEntry w input callback s =
    (r, {| trace := trace s ++ t; drawn := drawn s |}) ->
  r = Returned (Some e) \/ (None, Some (VEntry e)) ∈ callbacks t ->
  Entry.mode e <> "invalid" /\ Entry.mode e <> "can-invalidate".
Proof.
  intros Hprefix Hlen Hrun He.
  destruct (getEntry_inversion w input callback s r t e Hrun He)
    as (name & h & pre & dev & e0 & e1 & e2 & e3 & e4 & deed
        & Hres & _ & _ & ->).
  destruct Hres as [_ | n Hne _]; [| contradiction].
  cbn [new_Entry Entry.mode]. unfold Entry_mode.
  destruct (Z.ltb_spec (JS.length input) 7); [lia |].
  repeat match goal with
    | |- context [if ?b then _ else _] => destruct b
    end; split; discriminate.
Qed.

Lemma getEntry_by_hash_is_never_invalid_witness :
  let w := Mock.world 1500000000000 Mock.lcg Mock.open_entry zero_address in
  let deed := Deed.Build (Some zero_address) None None None in
  let input :=
    "0x73079a5cb4c7d259f40c6d0841629e689d2a95b85883b371e075ffb2f329c3e1" in
  let e := new_Entry 1500000000000 input input 0 deed 0 0 0 in
  (JS.substring0 2 input = "0x" /\ 7 <= JS.length input)
  /\ fst (getEntry w input false initial) = Returned (Some e)
  /\ Entry.mode e <> "invalid" /\ Entry.mode e <> "can-invalidate".
Proof.
  intros w deed input e.
  assert (JS.substring0 2 input = "0x") as Hprefix by reflexivity.
  assert (7 <= JS.length input) as Hlen by (vm_compute; discriminate).
  assert (exists t,
            getEntry w input false initial =
              (Returned (Some e),
               {| trace := trace initial ++ t; drawn := drawn initial |}))
    as [t Hrun] by (eexists; reflexivity).
  split; [split; assumption |]. split; [rewrite Hrun; reflexivity |].
  exact (getEntry_by_hash_is_never_invalid w input false initial _ t e
           Hprefix Hlen Hrun (or_introl eq_refl)).
Defined.

(** ** Reads and writes *)

(** Runs openAuction up to the point where it looks at the name. *)
Ltac run_openAuction w s :=
  unfold openAuction;
  rewrite (bind_run _ _ _ _ _ (fill_random_ten w s));
  unfold_M.

(** X10.  getDeed, getEntry, isBidRevealed and bidFactory only read:
    whatever the world answers, none of them adds a transaction to the
    ledger calls made so far. *)
Theorem lookups_never_write (w : World) (this : Registrar) (s : state) :
  (forall address,
      ledger_writes (trace (snd (getDeed w address s))) =
      ledger_writes (trace s))
  /\ (forall input callback,
        ledger_writes (trace (snd (getEntry w input callback s))) =
        ledger_writes (trace s))
  /\ (forall bid callback,
        ledger_writes (trace (snd (isBidRevealed w bid callback s))) =
        ledger_writes (trace s))
  /\ (forall name owner value secret,
        ledger_writes
          (trace (snd (bidFactory w this name owner value secret s))) =
        ledger_writes (trace s)).
Proof.
  split; [| split; [| split]].
  - intros address. unfold getDeed. unfold_M. split_answers;
      cbn [snd trace]; read_trace; reflexivity.
  - intros input callback. unfold getEntry, getDeed.
    destruct (negb (JS.substring0 2 input =? "0x")%string);
      unfold_M;
      try match goal with
        | |- context [normalise w ?n] => destruct (normalise w n)
        end;
      match goal with
      | |- context [entries w ?h] =>
          destruct (entries w h) as [[[[[e0 e1] e2] e3] e4] | err]
      | _ => idtac
      end;
      cbn [trace drawn];
      repeat match goal with
        | |- context [negb (?a =? ?b)%string] =>
            destruct (String.eqb_spec a b); cbn [negb]; unfold_M
        end;
      split_answers; destruct callback; cbn [trace drawn snd];
      read_trace; reflexivity.
  - intros bid callback. unfold isBidRevealed. destruct callback;
      unfold_M; split_answers; cbn [snd trace]; read_trace; reflexivity.
  - intros name owner value secret. unfold bidFactory. unfold_M.
    destruct (JS.length name <? minLength this); [reflexivity |].
    split_answers; cbn [snd trace]; read_trace; reflexivity.
Qed.

(** Closes a goal that asks for the ledger calls added by a run. *)
Ltac added_calls :=
  first [ exists []; split; [rewrite ?app_nil_r; reflexivity |];
          left; reflexivity
        | eexists; split; [reflexivity |];
          right; eexists; split; reflexivity ].

(** X11.  openAuction, submitBid, unsealBid and finalizeAuction make at
    most one ledger call, and it is a transaction: none of them reads
    the ledger. *)
Theorem transactions_make_one_call (w : World) (this : Registrar)
    (params : Params.t) (callback : bool) (s : state) :
  let one_write (s' : state) :=
    exists t,
      ledger_calls (trace s') = ledger_calls (trace s) ++ t
      /\ (t = [] \/ exists c, t = [c] /\ is_write c = true) in
  (forall name, one_write (snd (openAuction w this name params callback s)))
  /\ (forall bid, one_write (snd (submitBid w bid params callback s)))
  /\ (forall bid, one_write (snd (unsealBid_op w bid params callback s)))
  /\ (forall name, one_write (snd (finalizeAuction w name params callback s))).
Proof.
  intros one_write. subst one_write. cbv beta.
  split; [| split; [| split]].
  - intros name. run_openAuction w s.
    destruct callback; destruct (normalise w name);
      try destruct (JS.length name <? minLength this);
      split_answers; cbn [snd trace]; read_trace;
      rewrite ?ledger_calls_sha3; cbn [app]; added_calls.
  - intros bid. unfold submitBid.
    destruct callback, (deposit_below_bid w params bid); unfold_M;
      split_answers; cbn [snd trace]; read_trace; added_calls.
  - intros bid. unfold unsealBid_op. destruct callback; unfold_M;
      split_answers; cbn [snd trace]; read_trace; added_calls.
  - intros name. unfold finalizeAuction. unfold_M.
    destruct (normalise w name); destruct callback; split_answers;
      cbn [snd trace]; read_trace; added_calls.
Qed.

(** The runs of getEntry without and with a callback, side by side:
    the events of the synchronous run hold no invocation of a callback,
    and the run with a callback has the same events, followed by the
    invocation that hands over the entry when there is one. *)
Lemma getEntry_both_modes (w : World) (input : string) (s : state) :
  exists r t,
    getEntry w input false s =
      (r, {| trace := trace s ++ t; drawn := drawn s |})
    /\ callbacks t = []
    /\ getEntry w input true s =
         (match r with
          | Returned (Some _) => Returned None
          | _ => r
          end,
          {| trace := trace s ++ t
                        ++ match r with
                           | Returned (Some e) =>
                               [EvCallback None (Some (VEntry e))]
                           | _ => []
                           end;
             drawn := drawn s |}).
Proof.
  unfold getEntry, getDeed.
  destruct (negb (JS.substring0 2 input =? "0x")%string);
    unfold_M;
    try match goal with
      | |- context [normalise w ?n] => destruct (normalise w n)
      end;
    match goal with
    | |- context [entries w ?h] =>
        destruct (entries w h) as [[[[[e0 e1] e2] e3] e4] | err]
    | _ => idtac
    end;
    cbn [trace drawn];
    repeat match goal with
      | |- context [negb (?a =? ?b)%string] =>
          destruct (String.eqb_spec a b); cbn [negb]; unfold_M
      end;
    split_answers; cbn [trace drawn]; rewrite <- ?app_assoc;
    do 2 eexists; (split; [reflexivity |]); (split; [reflexivity |]);
    rewrite ?app_nil_r; reflexivity.
Qed.

(** ** The two calling conventions *)

(** The invocation of the callback that hands over the outcome [r] of a
    synchronous call: [(null, result)] for a result, [(err, null)] for
    an error thrown. *)
Definition hands_over {A : Type} (inj : A -> value)
    (r : outcome (option A)) : event :=
  match r with
  | Returned a => EvCallback None (inj <$> a)
  | Thrown e => EvCallback (Some e) None
  end.

(** A call that fails while web3 formats the request: with or without
    a callback, its error is thrown. *)
Definition fails_early {A : Type} (w : World) (c : ledger_call)
    (answer : outcome A) : bool :=
  match answer with
  | Returned _ => false
  | Thrown _ => throws_early w c
  end.

(** The run of an operation with a callback that does what the run
    without one does, returns nothing, and then invokes the callback
    once with the outcome of that run. *)
Definition callback_run {A : Type} (inj : A -> value)
    (sync : outcome (option A) * state) : outcome (option A) * state :=
  (Returned None,
   {| trace := trace (snd sync) ++ [hands_over inj (fst sync)];
      drawn := drawn (snd sync) |}).

(** X12.  With a callback, openAuction makes the random draws, the
    hashes and the ledger call that it makes without one, and invokes
    the callback exactly once, as its last step: with the transaction id
    that the synchronous call returns, or with the error that it throws,
    be it the normaliser's, TooShort or the ledger's. *)
Theorem openAuction_callback_gets_sync_outcome (w : World)
    (this : Registrar) (name : string) (params : Params.t) (s : state) :
  openAuction w this name params true s =
  callback_run VTx (openAuction w this name params false s).
Proof.
  unfold callback_run, openAuction.
  rewrite !(bind_run _ _ _ _ _ (fill_random_ten w s)). unfold_M.
  destruct (normalise w name);
    try destruct (JS.length name <? minLength this);
    split_answers; cbn [fst snd trace drawn hands_over fmap option_fmap
                        option_map];
    rewrite <- ?app_assoc; reflexivity.
Qed.

(** The world [w] with a sender that is not an address: web3 refuses
    every transaction while it formats the request. *)
Definition with_invalid_sender (w : World) : World :=
  let refused := Thrown (LedgerError "invalid address") in
  {| web3_sha3 := web3_sha3 w;
     normalise := normalise w;
     namehash := namehash w;
     Date_now := Date_now w;
     Math_random := Math_random w;
     Number_toString := Number_toString w;
     StringToNumber := StringToNumber w;
     throws_early := fun c => is_write c;
     ens_owner := ens_owner w;
     entries := entries w;
     shaBid := shaBid w;
     sealedBids := sealedBids w;
     getBalance := getBalance w;
     deed_creationDate := deed_creationDate w;
     deed_owner := deed_owner w;
     startAuctions := fun _ _ => refused;
     newBid := fun _ _ => refused;
     unsealBid := fun _ _ _ _ _ => refused;
     finalizeAuction_tx := fun _ _ => refused |}.

(** There, unsealBid throws although it is given a callback, and never
    invokes it, where openAuction hands the error to its callback. *)
Example unsealBid_invalid_sender :
  let w :=
    with_invalid_sender
      (Mock.world 1500000000000 Mock.lcg Mock.open_entry zero_address) in
  let bid :=
    {| Bid.name := "foobarbaz"; Bid.hash := "0xfoobarbaz";
       Bid.value := Num 2000000000000000000; Bid.owner := "0xa0";
       Bid.secret := "secret"; Bid.hexSecret := "0xsecret";
       Bid.shaBid := "0x0xfoobarbaz0xa00xsecret" |} in
  let params :=
    {| Params.from := Some "bob"; Params.value := None;
       Params.gas := None |} in
  let err := LedgerError "invalid address" in
  unsealBid_op w bid params true initial =
    (Thrown err,
     {| trace :=
          [EvLedger (Tx_unsealBid "0xfoobarbaz" "0xa0"
                       (Num 2000000000000000000) "0xsecret" params)];
        drawn := 0 |})
  /\ (let '(r, s') :=
        openAuction w Mock.registrar "foobarbaz" params true initial in
      r = Returned None /\ callbacks (trace s') = [(Some err, None)]).
Proof. split; [reflexivity |]. vm_compute. split; reflexivity. Qed.

(** X13.  With a callback, submitBid does what it does without one.
    When the deposit check refuses the bid, or the newBid call does not
    fail while web3 formats the request, it returns nothing and invokes
    the callback exactly once: with the transaction id that the
    synchronous call returns, or with the error that it throws,
    NoDeposit or the ledger's.  When the newBid call fails while web3
    formats the request, the error is thrown as in the synchronous call
    and the callback is not invoked. *)
Theorem submitBid_callback_gets_sync_outcome (w : World) (bid : Bid.t)
    (params : Params.t) (s : state) :
  submitBid w bid params true s =
  if negb (deposit_below_bid w params bid)
     && fails_early w (Tx_newBid (Bid.shaBid bid) params)
          (newBid w (Bid.shaBid bid) params)
  then submitBid w bid params false s
  else callback_run VTx (submitBid w bid params false s).
Proof.
  unfold callback_run, fails_early, submitBid.
  destruct (deposit_below_bid w params bid); cbn [negb andb]; unfold_M;
    split_answers;
    cbn [fst snd trace drawn hands_over fmap option_fmap option_map];
    rewrite <- ?app_assoc; destruct s; reflexivity.
Qed.


(** X15.  With a callback, isBidRevealed makes the sealedBids read that
    it makes without one.  Unless the read fails while web3 formats the
    request, it returns nothing and invokes the callback exactly once,
    with the boolean that the synchronous call returns or with the
    ledger's error that it throws; when the read fails while web3
    formats the request, the error is thrown as in the synchronous call
    and the callback is not invoked. *)
Theorem isBidRevealed_callback_gets_sync_outcome (w : World) (bid : Bid.t)
    (s : state) :
  isBidRevealed w bid true s =
  if fails_early w (Call_sealedBids (Bid.shaBid bid))
       (sealedBids w (Bid.shaBid bid))
  then isBidRevealed w bid false s
  else callback_run VBool (isBidRevealed w bid false s).
Proof.
  unfold callback_run, fails_early, isBidRevealed. unfold_M. split_answers;
    cbn [fst snd trace drawn hands_over fmap option_fmap option_map];
    rewrite <- ?app_assoc; reflexivity.
Qed.

(** X16.  With a callback, getEntry makes the calls that it makes
    without one.  When the synchronous call returns an entry, the
    callback is invoked once, with a null error and that entry; when the
    synchronous call throws, the call with a callback throws the same
    error and the callback is not invoked: the callback of getEntry
    never receives an error. *)
Theorem getEntry_callback_follows_sync (w : World) (input : string)
    (s : state) :
  getEntry w input true s =
  match getEntry w input false s with
  | (Returned (Some e), s1) =>
      (Returned None,
       {| trace := trace s1 ++ [EvCallback None (Some (VEntry e))];
          drawn := drawn s1 |})
  | (Returned None, s1) => (Returned None, s1)
  | (Thrown e, s1) => (Thrown e, s1)
  end.
Proof.
  destruct (getEntry_both_modes w input s) as (r & t & Hsync & _ & Hasync).
  rewrite Hasync, Hsync. destruct r as [[e |] | e]; cbn [trace drawn];
    rewrite ?app_nil_r, <- ?app_assoc; reflexivity.
Qed.

(** X17.  finalizeAuction normalises the name before it looks at the
    callback: an error of the normaliser is thrown with or without a
    callback, and the callback is not invoked.  So is the error of a
    finalizeAuction call that fails while web3 formats the request.
    Otherwise the call with a callback sends the transaction that the
    synchronous call sends, returns nothing and invokes the callback
    once, with the transaction id or with the ledger's error. *)
Theorem finalizeAuction_callback_follows_sync (w : World) (name : string)
    (params : Params.t) (s : state) :
  finalizeAuction w name params true s =
  match normalise w name with
  | Thrown e => finalizeAuction w name params false s
  | Returned n =>
      if fails_early w (Tx_finalizeAuction (sha3withZeroX w n) params)
           (finalizeAuction_tx w (sha3withZeroX w n) params)
      then finalizeAuction w name params false s
      else callback_run VTx (finalizeAuction w name params false s)
  end.
Proof.
  unfold callback_run, fails_early, finalizeAuction. unfold_M.
  destruct (normalise w name); split_answers;
    cbn [fst snd trace drawn hands_over fmap option_fmap option_map];
    rewrite <- ?app_assoc; reflexivity.
Qed.

(** ** bidFactory, submitBid and unsealBid *)

(** X18.  bidFactory returns a bid exactly when the name has the minimum
    length, the normaliser accepts it and the registrar answers the
    shaBid read.  The bid keeps the normalised name, the value, the
    owner and the secret as given, the hashes of the normalised name and
    of the secret, and as its shaBid the registrar's answer for the
    hash, the owner, the value and the hash of the secret. *)
Theorem bidFactory_returns_iff (w : World) (this : Registrar)
    (name owner : string) (value : amount) (secret : string) (s : state)
    (bid : Bid.t) :
  fst (bidFactory w this name owner value secret s) = Returned bid <->
  minLength this <= JS.length name
  /\ exists n c,
      normalise w name = Returned n
      /\ shaBid w (sha3withZeroX w n) owner value (sha3withZeroX w secret) =
           Returned c
      /\ bid = {| Bid.name := n; Bid.hash := sha3withZeroX w n;
                  Bid.value := value; Bid.owner := owner;
                  Bid.secret := secret;
                  Bid.hexSecret := sha3withZeroX w secret;
                  Bid.shaBid := c |}.
Proof.
  unfold bidFactory. unfold_M.
  destruct (Z.ltb_spec (JS.length name) (minLength this)) as [Hlt | Hge].
  - split; [discriminate | lia].
  - destruct (normalise w name) as [n | e] eqn:Hnorm; cbn [fst].
    + destruct (shaBid w (sha3withZeroX w n) owner value
                  (sha3withZeroX w secret)) as [c | e] eqn:Hsha; cbn [fst].
      * split.
        -- intros H. injection H as <-. split; [lia |].
           exists n, c. repeat split. exact Hsha.
        -- intros (_ & n' & c' & Hn & Hc & ->).
           injection Hn as <-. rewrite Hsha in Hc. injection Hc as <-.
           reflexivity.
      * split; [discriminate |].
        intros (_ & n' & c' & Hn & Hc & _). injection Hn as <-.
        rewrite Hsha in Hc. discriminate Hc.
    + split; [discriminate |].
      intros (_ & n' & c' & Hn & _). discriminate Hn.
Qed.

(** X19.  bidFactory throws in three cases and no other: TooShort for a
    name shorter than the minimum length, whatever the normaliser makes
    of it; the normaliser's error for a name of the minimum length that
    it rejects; and the ledger's error when the name passes both and the
    shaBid read fails. *)
Theorem bidFactory_throws_iff (w : World) (this : Registrar)
    (name owner : string) (value : amount) (secret : string) (s : state)
    (e : error) :
  fst (bidFactory w this name owner value secret s) = Thrown e <->
  (JS.length name < minLength this /\ e = TooShort)
  \/ (minLength this <= JS.length name
      /\ (normalise w name = Thrown e
          \/ exists n,
              normalise w name = Returned n
              /\ shaBid w (sha3withZeroX w n) owner value
                   (sha3withZeroX w secret) = Thrown e)).
Proof.
  unfold bidFactory. unfold_M.
  destruct (Z.ltb_spec (JS.length name) (minLength this)) as [Hlt | Hge];
    cbn [fst].
  - split.
    + intros H. injection H as <-. left. split; [exact Hlt | reflexivity].
    + intros [[_ ->] | [Hge _]]; [reflexivity | lia].
  - destruct (normalise w name) as [n | e'] eqn:Hnorm; cbn [fst].
    + destruct (shaBid w (sha3withZeroX w n) owner value
                  (sha3withZeroX w secret)) as [c | e'] eqn:Hsha; cbn [fst].
      * split; [discriminate |].
        intros [[Hlt _] | [_ [Hn | (n' & Hn & Hc)]]];
          [lia | discriminate Hn |].
        injection Hn as <-. rewrite Hsha in Hc. discriminate Hc.
      * split.
        -- intros H. injection H as <-. right. split; [exact Hge |].
           right. exists n. split; [reflexivity | exact Hsha].
        -- intros [[Hlt _] | [_ [Hn | (n' & Hn & Hc)]]];
             [lia | discriminate Hn |].
           injection Hn as <-. rewrite Hsha in Hc. injection Hc as <-.
           reflexivity.
    + split.
      * intros H. injection H as <-. right. split; [exact Hge |].
        left. reflexivity.
      * intros [[Hlt _] | [_ [Hn | (n' & Hn & _)]]];
          [lia | injection Hn as <-; reflexivity | discriminate Hn].
Qed.

(** The events of a failing bidFactory: nothing for a short name, the
    call of the normaliser alone when it rejects the name. *)
Lemma bidFactory_rejected_name (w : World) (this : Registrar)
    (name owner : string) (value : amount) (secret : string) (s : state)
    (e : error) :
  minLength this <= JS.length name ->
  normalise w name = Thrown e ->
  bidFactory w this name owner value secret s =
    (Thrown e, {| trace := trace s ++ [EvNormalise name];
                  drawn := drawn s |}).
Proof.
  intros Hge Hnorm. unfold bidFactory. unfold_M.
  destruct (Z.ltb_spec (JS.length name) (minLength this)); [lia |].
  rewrite Hnorm. reflexivity.
Qed.

(** X20.  What bidFactory commits to is what unsealBid reveals: for a
    bid that bidFactory returned, the registrar's shaBid of the hash,
    the owner, the value and the hashed secret of the bid is the shaBid
    of the bid; submitBid, when the deposit covers the value, sends that
    shaBid, and unsealBid sends those four values. *)
Theorem bid_commits_to_what_it_reveals (w : World) (this : Registrar)
    (name owner : string) (value : amount) (secret : string) (s : state)
    (bid : Bid.t) :
  fst (bidFactory w this name owner value secret s) = Returned bid ->
  shaBid w (Bid.hash bid) (Bid.owner bid) (Bid.value bid)
    (Bid.hexSecret bid) = Returned (Bid.shaBid bid)
  /\ (forall params callback s1,
        deposit_below_bid w params bid = false ->
        ledger_calls (trace (snd (submitBid w bid params callback s1))) =
        ledger_calls (trace s1) ++ [Tx_newBid (Bid.shaBid bid) params])
  /\ (forall params callback s1,
        ledger_calls (trace (snd (unsealBid_op w bid params callback s1))) =
        ledger_calls (trace s1)
          ++ [Tx_unsealBid (Bid.hash bid) (Bid.owner bid) (Bid.value bid)
                (Bid.hexSecret bid) params]).
Proof.
  intros Hbid.
  assert (exists n c,
             shaBid w (sha3withZeroX w n) owner value
               (sha3withZeroX w secret) = Returned c
             /\ bid = {| Bid.name := n; Bid.hash := sha3withZeroX w n;
                         Bid.value := value; Bid.owner := owner;
                         Bid.secret := secret;
                         Bid.hexSecret := sha3withZeroX w secret;
                         Bid.shaBid := c |}) as (n & c & Hsha & ->).
  { revert Hbid. unfold bidFactory. unfold_M.
    destruct (JS.length name <? minLength this); [discriminate |].
    destruct (normalise w name) as [n | e]; [| discriminate].
    cbn [fst].
    destruct (shaBid w (sha3withZeroX w n) owner value
                (sha3withZeroX w secret)) as [c | e] eqn:Hsha;
      [| discriminate].
    intros Hbid. injection Hbid as <-. exists n, c.
    split; [exact Hsha | reflexivity]. }
  cbn [Bid.hash Bid.owner Bid.value Bid.hexSecret Bid.shaBid].
  split; [exact Hsha |]. split.
  - intros params callback s1 Hcheck. unfold submitBid. rewrite Hcheck.
    destruct callback; unfold_M; split_answers; cbn [snd trace];
      read_trace; reflexivity.
  - intros params callback s1. unfold unsealBid_op.
    destruct callback; unfold_M; split_answers; cbn [snd trace];
      read_trace; reflexivity.
Qed.

Lemma bid_commits_to_what_it_reveals_witness :
  let w := Mock.world 1500000000000 Mock.lcg Mock.open_entry zero_address in
  let bid :=
    {| Bid.name := "foobarbaz"; Bid.hash := "0xfoobarbaz";
       Bid.value := Num 2000000000000000000; Bid.owner := "0xa0";
       Bid.secret := "secret"; Bid.hexSecret := "0xsecret";
       Bid.shaBid := "0x0xfoobarbaz0xa00xsecret" |} in
  fst (bidFactory w Mock.registrar "foobarbaz" "0xa0"
         (Num 2000000000000000000) "secret" initial) = Returned bid
  /\ shaBid w (Bid.hash bid) (Bid.owner bid) (Bid.value bid)
       (Bid.hexSecret bid) = Returned (Bid.shaBid bid)
  /\ ledger_calls
       (trace (snd (unsealBid_op w bid Params.empty false initial))) =
     [Tx_unsealBid "0xfoobarbaz" "0xa0" (Num 2000000000000000000)
        "0xsecret" Params.empty].
Proof.
  intros w bid.
  assert (fst (bidFactory w Mock.registrar "foobarbaz" "0xa0"
                 (Num 2000000000000000000) "secret" initial) = Returned bid)
    as Hbid by reflexivity.
  split; [exact Hbid |].
  destruct (bid_commits_to_what_it_reveals w Mock.registrar "foobarbaz"
              "0xa0" (Num 2000000000000000000) "secret" initial bid Hbid)
    as (Hsha & _ & Hreveal).
  split; [exact Hsha | exact (Hreveal Params.empty false initial)].
Defined.

(** X21.  A deposit that equals the value of the bid is enough: when
    the value in the transaction parameters is a number that is not
    below the number of the value of the bid, be that value a number or
    a string, submitBid raises no NoDeposit and sends the newBid
    transaction with the shaBid of the bid and the parameters as given;
    its outcome is the ledger's. *)
Theorem submitBid_accepts_covering_deposit (w : World) (bid : Bid.t)
    (params : Params.t) (deposit value : Z) (s : state) :
  Params.value params = Some (Num deposit) ->
  ToNumber w (Bid.value bid) = Some value ->
  value <= deposit ->
  submitBid w bid params false s =
    (match newBid w (Bid.shaBid bid) params with
     | Returned id => Returned (Some id)
     | Thrown e => Thrown e
     end,
     {| trace := trace s ++ [EvLedger (Tx_newBid (Bid.shaBid bid) params)];
        drawn := drawn s |}).
Proof.
  intros Hdeposit Hvalue Hcover.
  assert (deposit_below_bid w params bid = false) as Hcheck.
  { unfold deposit_below_bid, less_than. rewrite Hdeposit.
    assert (JS.lt (ToNumber w (Num deposit)) (ToNumber w (Bid.value bid))
            = false) as Hlt
      by (rewrite Hvalue; cbn; apply Z.ltb_ge, Hcover).
    destruct (Bid.value bid); exact Hlt. }
  unfold submitBid. rewrite Hcheck. unfold_M.
  destruct (newBid w (Bid.shaBid bid) params); reflexivity.
Qed.

Lemma submitBid_accepts_covering_deposit_witness :
  let w := Mock.world 1500000000000 Mock.lcg Mock.open_entry zero_address in
  let bid :=
    {| Bid.name := "foobarbaz"; Bid.hash := "0xfoobarbaz";
       Bid.value := Num 2000000000000000000; Bid.owner := "0xa0";
       Bid.secret := "secret"; Bid.hexSecret := "0xsecret";
       Bid.shaBid := "0x0xfoobarbaz0xa00xsecret" |} in
  let params :=
    {| Params.from := Some "0xa0";
       Params.value := Some (Num 2000000000000000000);
       Params.gas := Some 4700000 |} in
  (Params.value params = Some (Num 2000000000000000000)
   /\ ToNumber w (Bid.value bid) = Some 2000000000000000000
   /\ 2000000000000000000 <= 2000000000000000000)
  /\ submitBid w bid params false initial =
       (Returned (Some "0xa2"),
        {| trace := [EvLedger (Tx_newBid (Bid.shaBid bid) params)];
           drawn := 0 |}).
Proof.
  intros w bid params.
  assert (2000000000000000000 <= 2000000000000000000) as Hcover
    by (vm_compute; discriminate).
  split; [split; [reflexivity | split; [reflexivity | exact Hcover]] |].
  exact (submitBid_accepts_covering_deposit w bid params
           2000000000000000000 2000000000000000000 initial eq_refl eq_refl
           Hcover).
Defined.

(** ** finalizeAuction and the draws of openAuction *)

(** X22.  The length check guards bidding and opening, not finalizing:
    for a name shorter than the registrar's minimum length that the
    normaliser accepts, bidFactory and openAuction throw TooShort, and
    finalizeAuction, which never looks at the length, sends the
    finalizeAuction transaction on the hash of the normalised name, with
    or without a callback. *)
Theorem short_name_can_be_finalized (w : World) (this : Registrar)
    (name n : string) (params : Params.t) (s : state) :
  JS.length name < minLength this ->
  normalise w name = Returned n ->
  (forall owner value secret,
      fst (bidFactory w this name owner value secret s) = Thrown TooShort)
  /\ fst (openAuction w this name params false s) = Thrown TooShort
  /\ (forall callback,
        ledger_calls
          (trace (snd (finalizeAuction w name params callback s))) =
        ledger_calls (trace s)
          ++ [Tx_finalizeAuction (sha3withZeroX w n) params])
  /\ fst (finalizeAuction w name params false s) =
       match finalizeAuction_tx w (sha3withZeroX w n) params with
       | Returned id => Returned (Some id)
       | Thrown e => Thrown e
       end.
Proof.
  intros Hshort Hnorm.
  assert ((JS.length name <? minLength this) = true) as Hcheck
    by (apply Z.ltb_lt, Hshort).
  split; [| split; [| split]].
  - intros owner value secret. unfold bidFactory. unfold_M.
    rewrite Hcheck. reflexivity.
  - run_openAuction w s. rewrite Hnorm, Hcheck. reflexivity.
  - intros callback. unfold finalizeAuction. unfold_M. rewrite Hnorm.
    destruct callback; split_answers; cbn [snd trace]; read_trace;
      reflexivity.
  - unfold finalizeAuction. unfold_M. rewrite Hnorm.
    split_answers; reflexivity.
Qed.

Lemma short_name_can_be_finalized_witness :
  let w := Mock.world 1500000000000 Mock.lcg Mock.open_entry zero_address in
  (JS.length "foo" < minLength Mock.registrar
   /\ normalise w "foo" = Returned "foo")
  /\ fst (openAuction w Mock.registrar "foo" Params.empty false initial) =
       Thrown TooShort
  /\ ledger_calls
       (trace (snd (finalizeAuction w "foo" Params.empty false initial))) =
     [Tx_finalizeAuction "0xfoo" Params.empty]
  /\ fst (finalizeAuction w "foo" Params.empty false initial) =
       Returned (Some "0xa4").
Proof.
  intros w. split; [split; reflexivity |].
  destruct (short_name_can_be_finalized w Mock.registrar "foo" "foo"
              Params.empty initial eq_refl eq_refl)
    as (_ & Hopen & Hcalls & Hresult).
  split; [exact Hopen |]. split; [exact (Hcalls false) | exact Hresult].
Defined.

(** X23.  openAuction builds its random batch before it looks at the
    name: whether the name is accepted or not, and with or without a
    callback, a call starts with the ten hashes of random strings and
    consumes eleven values of Math.random, so that the next call draws
    the values that follow. *)
Theorem openAuction_draws_eleven (w : World) (this : Registrar)
    (name : string) (params : Params.t) (callback : bool) (s : state) :
  let s' := snd (openAuction w this name params callback s) in
  (exists t, trace s' = trace s ++ (EvSha3 <$> decoy_strings w s) ++ t)
  /\ drawn s' = (11 + drawn s)%nat
  /\ forall i, draw w s' i = draw w s (i + 11)%nat.
Proof.
  intros s'.
  assert ((exists t,
             trace s' = trace s ++ (EvSha3 <$> decoy_strings w s) ++ t)
          /\ drawn s' = (11 + drawn s)%nat) as [Htrace Hdrawn].
  { subst s'. run_openAuction w s.
    destruct callback; destruct (normalise w name);
      try destruct (JS.length name <? minLength this);
      split_answers; cbn [snd trace drawn];
      rewrite <- ?app_assoc; (split; [eexists; reflexivity | reflexivity]). }
  split; [exact Htrace |]. split; [exact Hdrawn |].
  intros i. unfold draw. rewrite Hdrawn. f_equal. lia.
Qed.

(** ** The name-status component, a caller of getEntry *)

(** The component looks up the name that the user searched and keeps
    what it shows in template variables.  Its callback is run on the
    invocations that the call of getEntry records. *)
Module NameStatus.

(** What a template variable or a session variable holds. *)
Inductive var : Type :=
| VarBool (b : bool)
| VarString (s : string)
| VarError (e : error)
| VarNameInfo (name : string) (entry : Entry.t).

(** The TemplateVar store of the component and the Session store. *)
Record ui : Type := { vars : gmap string var; session : gmap string var }.

Definition TemplateVar_set (key : string) (v : var) (u : ui) : ui :=
  {| vars := <[key := v]> (vars u); session := session u |}.

Definition Session_set (key : string) (v : var) (u : ui) : ui :=
  {| vars := vars u; session := <[key := v]> (session u) |}.

Definition Session_get (key : string) (u : ui) : option var :=
  session u !! key.

(** [if (searched)]: the value is a string that is not empty. *)
Definition truthy_name (v : option var) : option string :=
  match v with
  | Some (VarString name) => if (name =? "")%string then None else Some name
  | _ => None
  end.

(** The arrow function [(err, entry) => { if (!err && entry) ... }]
    handed to getEntry. *)
Definition on_entry (err : option error) (result : option value) (u : ui)
  : ui :=
  match err, result with
  | None, Some (VEntry entry) =>
      let u :=
        TemplateVar_set "nameInfo"
          (VarNameInfo (Entry.name entry ++ ".eth")%string entry) u in
      let u := TemplateVar_set "name" (VarString (Entry.name entry)) u in
      let u :=
        TemplateVar_set "status"
          (VarString ("status-" ++ Entry.mode entry)%string) u in
      let u :=
        TemplateVar_set "aside"
          (VarString ("aside-" ++ Entry.mode entry)%string) u in
      Session_set "name" (VarString (Entry.name entry)) u
  | _, _ => u
  end.

(** The function handed to [this.autorun]. *)
Definition autorun (w : World) (u : ui) (s : state) : ui * state :=
  let searched := Session_get "searched" u in
  let u := TemplateVar_set "error" (VarBool false) u in
  match truthy_name searched with
  | Some name =>
      let '(r, s') := getEntry w name true s in
      let invoked := callbacks (drop (length (trace s)) (trace s')) in
      let u := foldl (fun u cb => on_entry cb.1 cb.2 u) u invoked in
      match r with
      | Returned _ => (u, s')
      | Thrown e => (TemplateVar_set "error" (VarError e) u, s')
      end
  | None => (u, s)
  end.

(** The [onCreated] hook of the component, at the first run of the
    function it registers. *)
Definition onCreated (w : World) (u : ui) (s : state) : ui * state :=
  autorun w (TemplateVar_set "error" (VarBool false) u) s.

(** The helper [fullName]: the name of the stored nameInfo; [None] when
    there is none, where the helper fails on the property access. *)
Definition fullName (u : ui) : option string :=
  match vars u !! "nameInfo" with
  | Some (VarNameInfo name _) => Some name
  | _ => None
  end.

End NameStatus.

(** The run of the component on a name, in terms of the synchronous
    getEntry. *)
Lemma autorun_run (w : World) (u : NameStatus.ui) (s : state)
    (name : string) :
  NameStatus.truthy_name (NameStatus.Session_get "searched" u) = Some name ->
  let cleared :=
    NameStatus.TemplateVar_set "error" (NameStatus.VarBool false) u in
  fst (NameStatus.autorun w u s) =
    match fst (getEntry w name false s) with
    | Returned (Some entry) => NameStatus.on_entry None (Some (VEntry entry)) cleared
    | Returned None => cleared
    | Thrown e =>
        NameStatus.TemplateVar_set "error" (NameStatus.VarError e) cleared
    end.
Proof.
  intros Hsearched cleared. unfold NameStatus.autorun. rewrite Hsearched.
  destruct (getEntry_both_modes w name s) as (r & t & Hsync & Hcb & Hasync).
  rewrite Hasync, Hsync. cbn [fst trace].
  rewrite drop_app_length, callbacks_app, Hcb.
  destruct r as [[entry |] | e]; reflexivity.
Qed.

(** X24.  When the lookup of the searched name throws, the component
    stores the error in its 'error' variable and leaves every other
    template variable and the session as they were: the status, the
    name and the full name on display are those of the previous
    search. *)
Theorem NameStatus_keeps_old_status_on_error (w : World)
    (u : NameStatus.ui) (s : state) (name : string) (e : error) :
  NameStatus.truthy_name (NameStatus.Session_get "searched" u) = Some name ->
  fst (getEntry w name false s) = Thrown e ->
  let u' := fst (NameStatus.autorun w u s) in
  NameStatus.vars u' !! "error" = Some (NameStatus.VarError e)
  /\ (forall key,
        key <> "error" -> NameStatus.vars u' !! key = NameStatus.vars u !! key)
  /\ NameStatus.session u' = NameStatus.session u
  /\ NameStatus.fullName u' = NameStatus.fullName u.
Proof.
  intros Hsearched Hthrow u'. subst u'.
  rewrite (autorun_run w u s name Hsearched). rewrite Hthrow.
  unfold NameStatus.fullName. cbn [NameStatus.TemplateVar_set NameStatus.vars NameStatus.session].
  split; [apply lookup_insert_eq |].
  split; [| split; [reflexivity |]].
  - intros key Hkey. rewrite !lookup_insert_ne by congruence. reflexivity.
  - rewrite !lookup_insert_ne by discriminate. reflexivity.
Qed.

Lemma NameStatus_keeps_old_status_on_error_witness :
  let w := Mock.world 1500000000000 Mock.lcg Mock.open_entry zero_address in
  let u :=
    {| NameStatus.vars :=
         {[ "status" := NameStatus.VarString "status-owned" ]};
       NameStatus.session :=
         {[ "searched" := NameStatus.VarString "foo_bar" ]} |} in
  let e := NormaliseError "Illegal char _" in
  (NameStatus.truthy_name (NameStatus.Session_get "searched" u) =
     Some "foo_bar"
   /\ fst (getEntry w "foo_bar" false initial) = Thrown e)
  /\ NameStatus.vars (fst (NameStatus.autorun w u initial)) !! "error" =
       Some (NameStatus.VarError e)
  /\ NameStatus.vars (fst (NameStatus.autorun w u initial)) !! "status" =
       Some (NameStatus.VarString "status-owned").
Proof.
  intros w u e.
  assert (NameStatus.truthy_name (NameStatus.Session_get "searched" u) =
            Some "foo_bar") as Hsearched by (vm_compute; reflexivity).
  assert (fst (getEntry w "foo_bar" false initial) = Thrown e) as Hthrow
    by reflexivity.
  split; [split; assumption |].
  destruct (NameStatus_keeps_old_status_on_error w u initial "foo_bar" e
              Hsearched Hthrow) as (Herror & Hkeep & _).
  split; [exact Herror |].
  rewrite (Hkeep "status") by discriminate. vm_compute. reflexivity.
Defined.

(** X25.  When the lookup of the searched name returns an entry, the
    component shows no error; its status and its aside are 'status-' and
    'aside-' followed by the mode of the entry, its name is the name of
    the entry, its full name is that name followed by '.eth' (for a
    search by hash, the hash followed by '.eth'), and the session
    variable 'name' is the name of the entry. *)
Theorem NameStatus_shows_the_entry (w : World) (u : NameStatus.ui)
    (s : state) (name : string) (entry : Entry.t) :
  NameStatus.truthy_name (NameStatus.Session_get "searched" u) = Some name ->
  fst (getEntry w name false s) = Returned (Some entry) ->
  let u' := fst (NameStatus.autorun w u s) in
  NameStatus.vars u' !! "error" = Some (NameStatus.VarBool false)
  /\ NameStatus.vars u' !! "status" =
       Some (NameStatus.VarString ("status-" ++ Entry.mode entry)%string)
  /\ NameStatus.vars u' !! "aside" =
       Some (NameStatus.VarString ("aside-" ++ Entry.mode entry)%string)
  /\ NameStatus.vars u' !! "name" =
       Some (NameStatus.VarString (Entry.name entry))
  /\ NameStatus.fullName u' = Some (Entry.name entry ++ ".eth")%string
  /\ NameStatus.session u' !! "name" =
       Some (NameStatus.VarString (Entry.name entry))
  /\ NameStatus.session u' !! "searched" =
       NameStatus.session u !! "searched".
Proof.
  intros Hsearched Hrun u'. subst u'.
  rewrite (autorun_run w u s name Hsearched). rewrite Hrun.
  unfold NameStatus.fullName, NameStatus.on_entry.
  cbn [NameStatus.TemplateVar_set NameStatus.Session_set NameStatus.vars
       NameStatus.session].
  repeat split;
    repeat first [ rewrite lookup_insert_eq
                 | rewrite lookup_insert_ne by discriminate ];
    reflexivity.
Qed.

Lemma NameStatus_shows_the_entry_witness :
  let w := Mock.world 1500000000000 Mock.lcg Mock.owned_entry zero_address in
  let u :=
    {| NameStatus.vars := ∅;
       NameStatus.session :=
         {[ "searched" := NameStatus.VarString "insurance" ]} |} in
  let deed :=
    Deed.Build (Some "0x268e06911ba1ddc9138b355f9b42711abbc6eaec")
      (Some 5000000000000000000) (Some 1481108206)
      (Some "0x8394a052eb6c32fb9defcaabc12fcbd8fea0b8a8") in
  let entry :=
    new_Entry 1500000000000 "insurance" "0xinsurance" 2 deed 1481108206
      5000000000000000000 11100000000000000000 in
  (NameStatus.truthy_name (NameStatus.Session_get "searched" u) =
     Some "insurance"
   /\ fst (getEntry w "insurance" false initial) = Returned (Some entry))
  /\ NameStatus.vars (fst (NameStatus.autorun w u initial)) !! "status" =
       Some (NameStatus.VarString "status-owned")
  /\ NameStatus.fullName (fst (NameStatus.autorun w u initial)) =
       Some "insurance.eth".
Proof.
  intros w u deed entry.
  assert (NameStatus.truthy_name (NameStatus.Session_get "searched" u) =
            Some "insurance") as Hsearched by (vm_compute; reflexivity).
  assert (fst (getEntry w "insurance" false initial) =
            Returned (Some entry)) as Hrun by reflexivity.
  split; [split; assumption |].
  destruct (NameStatus_shows_the_entry w u initial "insurance" entry
              Hsearched Hrun) as (_ & Hstatus & _ & _ & Hfull & _).
  split; [exact Hstatus | exact Hfull].
Defined.

(** ** getDeed *)

(** X26.  getDeed returns a deed exactly when the balance read, the
    creationDate read and the owner read all succeed; the deed then has
    the address it was asked for and the three values read.  It reads
    whatever the address is: for the zero address too, where getEntry
    builds the sentinel without reading. *)
Theorem getDeed_returns_iff (w : World) (address : string) (s : state)
    (d : Deed.t) :
  fst (getDeed w address s) = Returned d <->
  exists b c o,
    getBalance w address = Returned b
    /\ deed_creationDate w address = Returned c
    /\ deed_owner w address = Returned o
    /\ d = Deed.Build (Some address) (Some b) (Some c) (Some o).
Proof.
  unfold getDeed. unfold_M.
  destruct (getBalance w address) as [b | e]; cbn [fst];
    [destruct (deed_creationDate w address) as [c | e]; cbn [fst];
     [destruct (deed_owner w address) as [o | e]; cbn [fst] |] |].
  - split.
    + intros H. injection H as <-. exists b, c, o. repeat split.
    + intros (b' & c' & o' & Hb & Hc & Ho & ->).
      injection Hb as <-. injection Hc as <-. injection Ho as <-.
      reflexivity.
  - split; [discriminate |].
    intros (b' & c' & o' & _ & _ & Ho & _). discriminate Ho.
  - split; [discriminate |].
    intros (b' & c' & o' & _ & Hc & _). discriminate Hc.
  - split; [discriminate |].
    intros (b' & c' & o' & Hb & _). discriminate Hb.
Qed.
